(** * LAX flight departures dashboard: the dataset provider and the aggregator

    A shallow embedding of [st_flights_dashboard.py]: the four aggregation
    functions ([filter_data], [calculate_data_by_hour],
    [group_data_by_terminal], [group_data_by_airline]) over a typed view of
    the flight table, and the dataset provider [load_data] as a program
    over an explicit world (directory listing, clock, remote API). *)

From Stdlib Require Import ZArith List String Ascii Bool Arith Lia Permutation.
From Stdlib Require Import DecimalString DecimalZ DecimalPos Sorted.
Import ListNotations.

Local Open Scope string_scope.
Local Open Scope Z_scope.

(* ===================================================================== *)
(** * Part I: the aggregator                                              *)
(* ===================================================================== *)

(** ** The flight table

    After [load_data] the columns [dep_time] and [timestamp_api_call] hold
    [datetime64[ns]] values: a count of nanoseconds since the epoch, or
    [NaT].  The text columns hold a string or a missing value.  The
    record lists the columns the code reads; the other columns of the
    frame are carried along untouched and play no part. *)

Definition Timestamp := Z.

Record FlightRecord := mkFlight {
  dep_time : option Timestamp;          (* None is NaT *)
  dep_terminal : option string;         (* None is a missing value *)
  airline_iata : option string;
  flight_iata : option string;
  timestamp_api_call : option Timestamp
}.

Definition Dataset := list FlightRecord.

(** A derived table: its column labels and its rows. *)
Record Table (Row : Type) := mkTable {
  columns : list string;
  rows : list Row
}.
Arguments mkTable {Row} _ _.
Arguments columns {Row} _.
Arguments rows {Row} _.

(** ** Series accessors *)

Definition ns_per_minute : Z := 60 * 1000000000.
Definition ns_per_hour : Z := 60 * ns_per_minute.

(** [Series.dt.hour] and [Series.dt.minute]; [NaT] gives a missing value. *)
Definition hour_of (t : Timestamp) : Z := (t / ns_per_hour) mod 24.
Definition minute_of (t : Timestamp) : Z := (t / ns_per_minute) mod 60.

Definition dt_hour (r : FlightRecord) : option Z := option_map hour_of (dep_time r).
Definition dt_minute (r : FlightRecord) : option Z := option_map minute_of (dep_time r).

(** [Series.notna()] on the two columns that may hold a missing value. *)
Definition has_time (r : FlightRecord) : bool :=
  match dep_time r with Some _ => true | None => false end.

Definition has_terminal (r : FlightRecord) : bool :=
  match dep_terminal r with Some _ => true | None => false end.

Definition has_airline (r : FlightRecord) : bool :=
  match airline_iata r with Some _ => true | None => false end.

(** Element-wise [==] of a series against a scalar: a missing value
    compares unequal to everything. *)
Definition eq_int (x : option Z) (v : Z) : bool :=
  match x with Some y => y =? v | None => false end.

Definition eq_str (x : option string) (v : string) : bool :=
  match x with Some y => String.eqb y v | None => false end.

(** Python truth value of an [Optional[int]] and of an [Optional[str]]:
    [None], [0] and the empty string are false. *)
Definition truthy_int (o : option Z) : bool :=
  match o with Some h => negb (h =? 0) | None => false end.

Definition truthy_str (o : option string) : bool :=
  match o with Some s => negb (String.eqb s "") | None => false end.

(** The value compared against, once the truth test has passed. *)
Definition int_value (o : option Z) : Z :=
  match o with Some h => h | None => 0 end.

Definition str_value (o : option string) : string :=
  match o with Some t => t | None => "" end.

(** ** [filter_data] (source lines 67-76) *)

Definition filter_data (data : Dataset) (departure_hour : option Z)
    (terminal_selected : option string) : Dataset :=
  let data :=
    if truthy_int departure_hour
    then filter (fun r => eq_int (dt_hour r) (int_value departure_hour)) data
    else data in
  let data :=
    if truthy_str terminal_selected
    then filter (fun r => eq_str (dep_terminal r) (str_value terminal_selected)) data
    else data in
  data.

(** ** [np.histogram(a, bins=n, range=(0, n))] on integer samples

    The bins have width one; bin [i] is [[i, i+1)], the last one is closed
    on the right.  Samples outside the range and missing samples are
    dropped. *)

Definition bin_index (n : nat) (v : Z) : option nat :=
  if (0 <=? v) && (v <=? Z.of_nat n)
  then Some (if v =? Z.of_nat n then Nat.pred n else Z.to_nat v)
  else None.

Definition in_bin (n i : nat) (x : option Z) : bool :=
  match x with
  | Some v => match bin_index n v with Some j => Nat.eqb j i | None => false end
  | None => false
  end.

Definition count {A : Type} (p : A -> bool) (l : list A) : nat :=
  List.length (filter p l).

Definition np_histogram (a : list (option Z)) (n : nat) : list nat :=
  map (fun i => count (in_bin n i) a) (seq 0 n).

(** ** [calculate_data_by_hour] (source lines 81-89) *)

Definition calculate_data_by_hour (data : Dataset) (departure_hour : option Z)
    (terminal_selected : option string) : Table (nat * nat) :=
  let data := filter_data data departure_hour terminal_selected in
  let hist := np_histogram (map dt_minute data) 60 in
  mkTable ["minute"; "departures"] (combine (seq 0 60) hist).

(** ** Group-by machinery

    [groupby] with its defaults drops the rows whose key is missing and
    lists the groups in ascending key order; [nunique] counts the distinct
    values that are not missing. *)

Fixpoint dropna {A : Type} (s : list (option A)) : list A :=
  match s with
  | [] => []
  | Some x :: s' => x :: dropna s'
  | None :: s' => dropna s'
  end.

Definition nunique (s : list (option string)) : nat :=
  List.length (nodup string_dec (dropna s)).

Section Sorting.
Context {K : Type} (leb : K -> K -> bool).

Fixpoint insert_sorted (k : K) (l : list K) : list K :=
  match l with
  | [] => [k]
  | x :: l' => if leb k x then k :: l else x :: insert_sorted k l'
  end.

Definition sort_keys (l : list K) : list K := fold_right insert_sorted [] l.
End Sorting.

Definition pair_dec (p q : string * string) : {p = q} + {p <> q}.
Proof. decide equality; apply string_dec. Defined.

Definition pair_leb (p q : string * string) : bool :=
  match String.compare (fst p) (fst q) with
  | Lt => true
  | Eq => String.leb (snd p) (snd q)
  | Gt => false
  end.

Definition terminal_key (r : FlightRecord) : option string := dep_terminal r.

Definition terminal_airline_key (r : FlightRecord) : option (string * string) :=
  match dep_terminal r, airline_iata r with
  | Some t, Some a => Some (t, a)
  | _, _ => None
  end.

Definition terminal_groups (data : Dataset) : list string :=
  sort_keys String.leb (nodup string_dec (dropna (map terminal_key data))).

Definition terminal_airline_groups (data : Dataset) : list (string * string) :=
  sort_keys pair_leb (nodup pair_dec (dropna (map terminal_airline_key data))).

Definition at_terminal (t : string) (r : FlightRecord) : bool :=
  match terminal_key r with Some t' => String.eqb t' t | None => false end.

Definition at_terminal_airline (k : string * string) (r : FlightRecord) : bool :=
  match terminal_airline_key r with
  | Some k' => String.eqb (fst k') (fst k) && String.eqb (snd k') (snd k)
  | None => false
  end.

(** Strictly ascending order on group keys. *)
Definition key_lt (a b : string) : Prop := String.ltb a b = true.

Definition pair_key_lt (p q : string * string) : Prop :=
  pair_leb p q = true /\ p <> q.

(** ** [group_data_by_terminal] (source lines 94-101) *)

Definition group_data_by_terminal (data : Dataset) (departure_hour : option Z)
    : Table (string * nat) :=
  let data := filter_data data departure_hour None in
  let grouped :=
    map (fun t => (t, nunique (map flight_iata (filter (at_terminal t) data))))
        (terminal_groups data) in
  mkTable ["dep_terminal"; "count_flights"] grouped.

(** ** [group_data_by_airline] (source lines 106-114) *)

Record AirlineRow := mkAirlineRow {
  row_terminal : string;
  row_airline : string;
  row_count : nat;
  row_airport : string
}.

Definition group_data_by_airline (data : Dataset) (departure_hour : option Z)
    : Table AirlineRow :=
  let data := filter_data data departure_hour None in
  let grouped :=
    map (fun k => (k, nunique (map flight_iata (filter (at_terminal_airline k) data))))
        (terminal_airline_groups data) in
  (* grouped["airport"] = "LAX": the column is set on the frame, whatever its rows *)
  mkTable ["dep_terminal"; "airline_iata"; "count_flights"; "airport"]
          (map (fun kc => mkAirlineRow (fst (fst kc)) (snd (fst kc)) (snd kc) "LAX") grouped).

(** The group a row of the airline summary stands for. *)
Definition row_key (row : AirlineRow) : string * string :=
  (row_terminal row, row_airline row).

(** Timestamps for examples: hour [h], minute [m] of day [d]. *)
Definition at_time (d h m : Z) : Timestamp :=
  d * (24 * ns_per_hour) + h * ns_per_hour + m * ns_per_minute.

Definition flight (d h m : Z) (t a f : option string) : FlightRecord :=
  mkFlight (Some (at_time d h m)) t a f None.

Definition sample : Dataset :=
  [ flight 19000 10 5 (Some "B") (Some "AA") (Some "AA100");
    flight 19000 11 7 (Some "B") (Some "AA") (Some "AA101");
    flight 19000 11 7 (Some "B") (Some "BA") (Some "BA1501");
    flight 19000 5 30 (Some "2") (Some "DL") (Some "DL7");
    flight 19000 5 30 None (Some "DL") (Some "DL8") ].


(** Scenario A: three records at terminal B, one in hour 10, two in hour 11. *)
Definition scenario_a : Dataset :=
  [ flight 19000 10 5 (Some "B") (Some "AA") (Some "AA100");
    flight 19000 11 7 (Some "B") (Some "AA") (Some "AA101");
    flight 19000 11 40 (Some "B") (Some "BA") (Some "BA1501") ].

(** The same, the hour-10 record lacking its flight identifier. *)
Definition scenario_a_no_id : Dataset :=
  [ flight 19000 10 5 (Some "B") (Some "AA") None;
    flight 19000 11 7 (Some "B") (Some "AA") (Some "AA101");
    flight 19000 11 40 (Some "B") (Some "BA") (Some "BA1501") ].

(** One flight number listed at two terminals. *)
Definition two_terminals : Dataset :=
  [ flight 19000 10 5 (Some "1") (Some "AA") (Some "AA100");
    flight 19001 10 5 (Some "2") (Some "AA") (Some "AA100") ].

(* ===================================================================== *)
(** * Part II: the dataset provider                                       *)
(* ===================================================================== *)

(** ** Python values the provider handles *)

Record date := mkDate { year : Z; month : Z; day : Z }.

Definition date_eqb (a b : date) : bool :=
  (year a =? year b) && (month a =? month b) && (day a =? day b).

#[local] Set Warnings "-register-all".

(** A parsed JSON document.  [JNull] is Python's [None]; a number keeps
    its literal. *)
Inductive json :=
| JNull
| JBool (b : bool)
| JNum (literal : string)
| JStr (s : string)
| JArr (items : list json)
| JObj (members : list (string * json)).

Inductive exn :=
| ValueError
| AttributeError
| KeyError
| OSError
| FileNotFoundError
| RequestException        (* requests.get could not complete the call *)
| JSONDecodeError         (* Response.json() on a body that is not JSON *)
| PandasError (code : nat).

(** What the remote end does with the one GET: the call fails, or a reply
    arrives whose body parses as JSON or does not. *)
Inductive http_reply :=
| ConnectionFailed
| Reply (body : option json).

(** ** String helpers *)

(** [s[-a:-b]] *)
Definition slice_from_end (a b : nat) (s : string) : string :=
  let n := String.length s in
  let start := (n - a)%nat in
  let stop := (n - b)%nat in
  substring start (stop - start) s.

(** [max(names)]: the first greatest element; [None] stands for the
    [ValueError] on an empty sequence. *)
Definition str_max (a b : string) : string := if String.ltb a b then b else a.

Definition py_max (names : list string) : option string :=
  match names with
  | [] => None
  | x :: rest => Some (fold_left str_max rest x)
  end.

Definition lower_char (c : ascii) : ascii :=
  let n := nat_of_ascii c in
  if (65 <=? n)%nat && (n <=? 90)%nat then ascii_of_nat (n + 32) else c.

Fixpoint lower (s : string) : string :=
  match s with
  | EmptyString => EmptyString
  | String c s' => String (lower_char c) (lower s')
  end.

(** [os.path.join] of two components (POSIX). *)
Fixpoint ends_with_slash (s : string) : bool :=
  match s with
  | EmptyString => false
  | String c EmptyString => Ascii.eqb c "/"
  | String _ s' => ends_with_slash s'
  end.

Definition os_path_join (a b : string) : string :=
  match b with
  | String "/" _ => b
  | _ => if String.eqb a "" || ends_with_slash a then a ++ b else a ++ "/" ++ b
  end.

(** ** [strptime(s, "%Y%m%d")] and [strftime("%Y%m%d")]

    The format compiles to the regular expression
    [(\d\d\d\d)(1[0-2]|0[1-9]|[1-9])(3[01]|[12]\d|0[1-9]|[1-9]| [1-9])];
    the first match in alternative order is taken, and text left over after
    it is an error, as is a date that does not exist.  File names are
    taken as ASCII text, one character a byte: Python's [\d] also accepts
    the other Unicode decimal digits and a slice counts code points, so a
    name with characters outside ASCII is outside this model. *)

Definition is_digit (c : ascii) : bool :=
  let n := nat_of_ascii c in (48 <=? n)%nat && (n <=? 57)%nat.

Definition digit_val (c : ascii) : Z := Z.of_nat (nat_of_ascii c) - 48.

Definition in_range (lo hi : Z) (c : ascii) : bool :=
  is_digit c && (lo <=? digit_val c) && (digit_val c <=? hi).

Definition month_alternatives (l : list ascii) : list (Z * list ascii) :=
  (match l with
   | c1 :: c2 :: rest =>
       (if Ascii.eqb c1 "1" && in_range 0 2 c2 then [(10 + digit_val c2, rest)] else []) ++
       (if Ascii.eqb c1 "0" && in_range 1 9 c2 then [(digit_val c2, rest)] else [])
   | _ => []
   end) ++
  (match l with
   | c1 :: rest => if in_range 1 9 c1 then [(digit_val c1, rest)] else []
   | [] => []
   end).

Definition day_alternatives (l : list ascii) : list (Z * list ascii) :=
  (match l with
   | c1 :: c2 :: rest =>
       (if Ascii.eqb c1 "3" && in_range 0 1 c2 then [(30 + digit_val c2, rest)] else []) ++
       (if in_range 1 2 c1 && is_digit c2
        then [(10 * digit_val c1 + digit_val c2, rest)] else []) ++
       (if Ascii.eqb c1 "0" && in_range 1 9 c2 then [(digit_val c2, rest)] else [])
   | _ => []
   end) ++
  (match l with
   | c1 :: rest => if in_range 1 9 c1 then [(digit_val c1, rest)] else []
   | [] => []
   end) ++
  (match l with
   | c1 :: c2 :: rest =>
       if Ascii.eqb c1 " " && in_range 1 9 c2 then [(digit_val c2, rest)] else []
   | _ => []
   end).

(** The first way, in backtracking order, to match month then day. *)
Fixpoint first_month_day (ms : list (Z * list ascii)) : option (Z * Z * list ascii) :=
  match ms with
  | [] => None
  | (m, rest) :: ms' =>
      match day_alternatives rest with
      | (d, rest') :: _ => Some (m, d, rest')
      | [] => first_month_day ms'
      end
  end.

Definition is_leap (y : Z) : bool :=
  (y mod 4 =? 0) && (negb (y mod 100 =? 0) || (y mod 400 =? 0)).

Definition days_in_month (y m : Z) : Z :=
  if m =? 2 then (if is_leap y then 29 else 28)
  else if (m =? 4) || (m =? 6) || (m =? 9) || (m =? 11) then 30
  else 31.

Definition strptime_Ymd (s : string) : option date :=
  match list_ascii_of_string s with
  | y1 :: y2 :: y3 :: y4 :: rest =>
      if is_digit y1 && is_digit y2 && is_digit y3 && is_digit y4 then
        match first_month_day (month_alternatives rest) with
        | Some (m, d, []) =>
            let y := 1000 * digit_val y1 + 100 * digit_val y2
                     + 10 * digit_val y3 + digit_val y4 in
            if (1 <=? y) && (d <=? days_in_month y m)
            then Some (mkDate y m d) else None
        | _ => None
        end
      else None
  | _ => None
  end.

Definition digit_char (d : Z) : ascii := ascii_of_nat (48 + Z.to_nat (d mod 10)).

(** [%Y] is written with four digits.  C libraries differ below year
    1000 (glibc writes the year without padding); from year 1000 on, which
    covers every date a clock returns, this is the text on every
    platform. *)
Definition strftime_Ymd (d : date) : string :=
  string_of_list_ascii
    [ digit_char (year d / 1000); digit_char (year d / 100);
      digit_char (year d / 10); digit_char (year d);
      digit_char (month d / 10); digit_char (month d);
      digit_char (day d / 10); digit_char (day d) ].

(** A date of the calendar that [datetime.date] can hold. *)
Definition valid_date (d : date) : Prop :=
  (1 <= year d <= 9999 /\ 1 <= month d <= 12 /\
   1 <= day d <= days_in_month (year d) (month d))%Z.

(** The name [load_data] gives to the cache file of a day (source lines
    52-55). *)
Definition cache_path (csv_filepath airport_iata : string) (d : date) : string :=
  os_path_join csv_filepath
    (lower airport_iata ++ "_flights_" ++ strftime_Ymd d ++ ".csv").

(** ** The libraries the provider calls

    [glob], [pandas]: the source only calls them, so they are an interface
    here.  [text] is what a file holds. *)
Record Libs := mkLibs {
  frame : Type;                                      (* pandas.DataFrame *)
  text : Type;
  glob_glob : list string -> string -> list string;  (* existing paths, pattern *)
  pd_DataFrame : json -> exn + frame;                (* pd.DataFrame(response) *)
  setitem_scalar : frame -> string -> Timestamp -> frame;   (* data[col] = value *)
  to_csv : frame -> text;                            (* data.to_csv(path, index=False) *)
  read_csv : text -> exn + frame;                    (* pd.read_csv(path) *)
  to_datetime : frame -> string -> exn + frame       (* data[col] = pd.to_datetime(data[col]) *)
}.

(** ** The world and the effects

    The inputs a run reads and cannot change, and the state it threads:
    the files of the cache directory and the log of what was done. *)

Inductive event :=
| EvGlob (pattern : string)
| EvHttpGet (url : string) (params : list (string * option string))
| EvLogError (msg : string)
| EvReadFile (path : string)
| EvWriteFile (path : string).

Section Provider.
Variable L : Libs.

Record World := mkWorld {
  today : date;                       (* dt.date.today() *)
  now : Timestamp;                    (* dt.datetime.now() *)
  env_api_key : option string;        (* os.environ.get("AIRLABS_API_KEY") *)
  remote : http_reply;                (* the remote end, for the one GET *)
  writable : bool                     (* whether the cache directory takes a new file *)
}.

Record State := mkState {
  files : list (string * text L);     (* path and content, newest binding first *)
  trace : list event                  (* oldest event first *)
}.

Definition M (A : Type) : Type := State -> (exn + A) * State.

Definition ret {A} (a : A) : M A := fun s => (inr a, s).
Definition raise {A} (e : exn) : M A := fun s => (inl e, s).
Definition bind {A B} (m : M A) (k : A -> M B) : M B :=
  fun s => match m s with
           | (inr a, s') => k a s'
           | (inl e, s') => (inl e, s')
           end.
(** [try: m except: h], with a bare [except]. *)
Definition try_except {A} (m : M A) (h : M A) : M A :=
  fun s => match m s with
           | (inr a, s') => (inr a, s')
           | (inl _, s') => h s'
           end.
Definition emit (e : event) : M unit :=
  fun s => (inr tt, mkState (files s) (trace s ++ [e])).
Definition lift {A} (r : exn + A) : M A := fun s => (r, s).
Definition or_raise {A} (e : exn) (o : option A) : M A :=
  match o with Some a => ret a | None => raise e end.

Notation "x <- m ;; k" := (bind m (fun x => k))
  (at level 61, m at next level, right associativity).
Notation "m ;;; k" := (bind m (fun _ => k))
  (at level 61, right associativity).

Fixpoint lookup {V} (k : string) (l : list (string * V)) : option V :=
  match l with
  | [] => None
  | (k', v) :: l' => if String.eqb k' k then Some v else lookup k l'
  end.

(** [glob.glob(pattern)] over the files present. *)
Definition glob (pattern : string) : M (list string) :=
  fun s => (inr (glob_glob L (map fst (files s)) pattern),
            mkState (files s) (trace s ++ [EvGlob pattern])).

(** [pd.read_csv(name)]; [name] may be [None]. *)
Definition pd_read_csv (name : option string) : M (frame L) :=
  match name with
  | None => raise ValueError
  | Some path =>
      emit (EvReadFile path) ;;;
      (fun s => match lookup path (files s) with
                | None => (inl FileNotFoundError, s)
                | Some content => (read_csv L content, s)
                end)
  end.

(** [data.to_csv(path, index=False)] *)
Definition write_csv (w : World) (data : frame L) (path : string) : M unit :=
  if writable w
  then fun s => (inr tt, mkState ((path, to_csv L data) :: files s)
                                 (trace s ++ [EvWriteFile path]))
  else raise OSError.

(** [requests.get(url, params)] *)
Definition requests_get (w : World) (url : string)
    (params : list (string * option string)) : M (option json) :=
  emit (EvHttpGet url params) ;;;
  match remote w with
  | ConnectionFailed => raise RequestException
  | Reply body => ret body
  end.

(** [result.json()] *)
Definition result_json (result : option json) : M json :=
  or_raise JSONDecodeError result.

(** [j.get("response")]: only a JSON object has the method. *)
Definition json_get (j : json) (key : string) : M json :=
  match j with
  | JObj members =>
      ret (match lookup key members with Some v => v | None => JNull end)
  | _ => raise AttributeError
  end.

Definition is_None (j : json) : bool :=
  match j with JNull => true | _ => false end.

(** [latest_csv_date == date_today] *)
Definition date_is (d : option date) (t : date) : bool :=
  match d with Some d' => date_eqb d' t | None => false end.

(** Source lines 26-31. *)
Definition latest_csv (csv_filename csv_filepath : string)
    : M (option string * option date) :=
  try_except
    (names <- glob (os_path_join csv_filepath csv_filename) ;;
     latest_csv_name <- or_raise ValueError (py_max names) ;;
     latest_csv_date <-
       or_raise ValueError (strptime_Ymd (slice_from_end 12 4 latest_csv_name)) ;;
     ret (Some latest_csv_name, Some latest_csv_date))
    (ret (None, None)).

(** Source lines 36-57: the branch that calls the API. *)
Definition fetch (w : World) (csv_filepath airport_iata : string)
    (latest_csv_name : option string) : M (frame L) :=
  let date_today := today w in
  let timestamp_api_call := now w in
  let api_key := env_api_key w in
  let url_base := "https://airlabs.co/api/v9/" in
  let url_path := "schedules" in
  let params := [("api_key", api_key); ("dep_iata", Some airport_iata)] in
  result <- requests_get w (url_base ++ url_path) params ;;
  j <- result_json result ;;
  response <- json_get j "response" ;;
  if is_None response then
    _ <- result_json result ;;
    emit (EvLogError "Airlabs API returned no data: ") ;;;
    pd_read_csv latest_csv_name
  else
    data <- lift (pd_DataFrame L response) ;;
    let data := setitem_scalar L data "timestamp_api_call" timestamp_api_call in
    write_csv w data
      (os_path_join csv_filepath
         (lower airport_iata ++ "_flights_" ++ strftime_Ymd date_today ++ ".csv")) ;;;
    ret data.

(** Source lines 59-60. *)
Definition normalize (data : frame L) : M (frame L) :=
  data <- lift (to_datetime L data "dep_time") ;;
  data <- lift (to_datetime L data "timestamp_api_call") ;;
  ret data.

(** ** [load_data] (source lines 24-62) *)
Definition load_data (w : World) (csv_filename csv_filepath airport_iata : string)
    : M (frame L) :=
  let date_today := today w in
  latest <- latest_csv csv_filename csv_filepath ;;
  let latest_csv_name := fst latest in
  let latest_csv_date := snd latest in
  data <-
    (if date_is latest_csv_date date_today
     then pd_read_csv latest_csv_name
     else fetch w csv_filepath airport_iata latest_csv_name) ;;
  normalize data.

(** Observations on a finished run. *)
Definition is_http (e : event) : bool :=
  match e with EvHttpGet _ _ => true | _ => false end.
Definition is_write (e : event) : bool :=
  match e with EvWriteFile _ => true | _ => false end.
Definition is_read_of (path : string) (e : event) : bool :=
  match e with EvReadFile p => String.eqb p path | _ => false end.

Definition api_calls (r : (exn + frame L) * State) : nat :=
  count is_http (trace (snd r)).
Definition file_writes (r : (exn + frame L) * State) : nat :=
  count is_write (trace (snd r)).

Definition start (fs : list (string * text L)) : State := mkState fs [].

(** The reply is a JSON object whose [response] is absent or null. *)
Definition empty_response (r : http_reply) : bool :=
  match r with
  | Reply (Some (JObj members)) =>
      match lookup "response" members with
      | None | Some JNull => true
      | Some _ => false
      end
  | _ => false
  end.

(** The [response] of a reply, when the reply is a JSON object and holds
    one that is not null. *)
Definition response_of (r : http_reply) : option json :=
  match r with
  | Reply (Some (JObj members)) =>
      match lookup "response" members with
      | None | Some JNull => None
      | Some v => Some v
      end
  | _ => None
  end.

(** The dataset a cache file holds: its table read back, the two time
    columns converted. *)
Definition normalized (data : frame L) : exn + frame L :=
  match to_datetime L data "dep_time" with
  | inr data' => to_datetime L data' "timestamp_api_call"
  | inl e => inl e
  end.

Definition cached_dataset (fs : list (string * text L)) (path : string)
    : exn + frame L :=
  match lookup path fs with
  | None => inl FileNotFoundError
  | Some content =>
      match read_csv L content with
      | inr data => normalized data
      | inl e => inl e
      end
  end.

(** The same world, the clock reading another time. *)
Definition with_now (w : World) (t : Timestamp) : World :=
  mkWorld (today w) t (env_api_key w) (remote w) (writable w).

(** The event of the one GET the provider issues. *)
Definition http_event (airport_iata : string) (w : World) : event :=
  EvHttpGet "https://airlabs.co/api/v9/schedules"
            [("api_key", env_api_key w); ("dep_iata", Some airport_iata)].

(** ** The process: [@st.experimental_singleton] (source line 23)

    Streamlit runs the script again on every interaction.  The decorator
    keeps, for the life of the process, the value that the first returning
    call produced and hands it to every later call with the same
    arguments; a call that raises leaves nothing behind, so the next rerun
    runs the body again.  The application passes the same arguments on
    every rerun (lines 118-122).  [gets] and [raised] count the GETs
    issued and the reruns that raised so far. *)
Record Process := mkProcess {
  kept : option (frame L);
  disk : list (string * text L);
  gets : nat;
  raised : nat
}.

Definition rerun (csv_filename csv_filepath airport_iata : string)
    (w : World) (p : Process) : (exn + frame L) * Process :=
  match kept p with
  | Some data => (inr data, p)
  | None =>
      let r := load_data w csv_filename csv_filepath airport_iata (start (disk p)) in
      match fst r with
      | inr data =>
          (inr data,
           mkProcess (Some data) (files (snd r)) (gets p + api_calls r) (raised p))
      | inl e =>
          (inl e,
           mkProcess None (files (snd r)) (gets p + api_calls r) (S (raised p)))
      end
  end.

(** The reruns of one process, each in the world of its moment. *)
Fixpoint reruns (csv_filename csv_filepath airport_iata : string)
    (ws : list World) (p : Process) : Process :=
  match ws with
  | [] => p
  | w :: ws' =>
      reruns csv_filename csv_filepath airport_iata ws'
             (snd (rerun csv_filename csv_filepath airport_iata w p))
  end.

Definition boot (fs : list (string * text L)) : Process := mkProcess None fs 0 0.

(** The call the application makes (source lines 118-122). *)
Definition app_load (w : World) (fs : list (string * text L)) :=
  load_data w "lax_flights_*.csv" "/Users/clau/Documents/Github/flights/data/" "LAX"
            (start fs).
End Provider.

Arguments ret {L A} _ _.
Arguments raise {L A} _ _.
Arguments bind {L A B} _ _ _.
Arguments files {L} _.
Arguments trace {L} _.
Arguments mkState {L} _ _.
Arguments kept {L} _.
Arguments disk {L} _.
Arguments gets {L} _.
Arguments raised {L} _.

(** ** A small instance of the libraries

    Tables kept in memory, a file holding the table it was written from
    with its timestamps printed in decimal.  It serves to run [load_data]
    on examples; the theorems hold for every instance. *)

Inductive cell :=
| Missing
| Text (s : string)
| Time (t : Timestamp).

Definition mem_frame : Type := list (list (string * cell)).

Fixpoint wild_match (p s : list ascii) : bool :=
  match p with
  | [] => match s with [] => true | _ => false end
  | "*"%char :: p' =>
      (fix star (s : list ascii) : bool :=
         wild_match p' s ||
         match s with
         | [] => false
         | c :: s' => negb (Ascii.eqb c "/") && star s'
         end) s
  | c :: p' =>
      match s with
      | c' :: s' => Ascii.eqb c c' && wild_match p' s'
      | [] => false
      end
  end.

Definition mem_glob (paths : list string) (pattern : string) : list string :=
  filter (fun path => wild_match (list_ascii_of_string pattern) (list_ascii_of_string path))
         paths.

Definition cell_of_json (j : json) : cell :=
  match j with
  | JNull => Missing
  | JStr s => Text s
  | JNum lit => Text lit
  | JBool true => Text "True"
  | JBool false => Text "False"
  | _ => Text ""
  end.

Fixpoint rows_of_json (items : list json) : exn + mem_frame :=
  match items with
  | [] => inr []
  | JObj members :: rest =>
      match rows_of_json rest with
      | inr rs => inr (map (fun kv => (fst kv, cell_of_json (snd kv))) members :: rs)
      | inl e => inl e
      end
  | _ :: _ => inl ValueError
  end.

Definition mem_DataFrame (j : json) : exn + mem_frame :=
  match j with
  | JArr items => rows_of_json items
  | _ => inl ValueError
  end.

Definition set_cell (col : string) (c : cell) (row : list (string * cell)) :=
  (filter (fun kv => negb (String.eqb (fst kv) col)) row ++ [(col, c)])%list.

Definition mem_setitem (f : mem_frame) (col : string) (t : Timestamp) : mem_frame :=
  map (set_cell col (Time t)) f.

Definition print_cell (c : cell) : cell :=
  match c with
  | Time t => Text (NilZero.string_of_int (Z.to_int t))
  | _ => c
  end.

Definition mem_to_csv (f : mem_frame) : mem_frame :=
  map (map (fun kv => (fst kv, print_cell (snd kv)))) f.

Definition parse_cell (c : cell) : exn + cell :=
  match c with
  | Text s =>
      match NilZero.int_of_string s with
      | Some i => inr (Time (Z.of_int i))
      | None => inl ValueError
      end
  | _ => inr c
  end.

Fixpoint mem_to_datetime (f : mem_frame) (col : string) : exn + mem_frame :=
  match f with
  | [] => inr []
  | row :: rest =>
      match lookup col row with
      | None => inl KeyError
      | Some c =>
          match parse_cell c, mem_to_datetime rest col with
          | inr c', inr rest' => inr (set_cell col c' row :: rest')
          | inl e, _ => inl e
          | _, inl e => inl e
          end
      end
  end.

Definition mem_libs : Libs :=
  mkLibs mem_frame mem_frame mem_glob mem_DataFrame mem_setitem
         mem_to_csv (fun t => inr t) mem_to_datetime.

(** Example worlds. *)
Definition data_dir : string := "/Users/clau/Documents/Github/flights/data/".

Definition day1 : date := mkDate 2022 8 1.
Definition day2 : date := mkDate 2022 8 2.

Definition stale_table : mem_frame :=
  [ [("dep_time", Text "1659348300000000000"); ("dep_terminal", Text "B");
     ("flight_iata", Text "AA100"); ("timestamp_api_call", Text "1659340000000000000")] ].

Definition stale_name : string := data_dir ++ "lax_flights_20220801.csv".

Definition stale_files : list (string * mem_frame) :=
  [ (stale_name, stale_table) ].

Definition fresh_response : json :=
  JArr [ JObj [("dep_time", JStr "1659434700000000000"); ("dep_terminal", JStr "2");
               ("flight_iata", JStr "DL7")] ].

Definition fresh_table : mem_frame :=
  [ [("dep_time", Text "1659434700000000000"); ("dep_terminal", Text "2");
     ("flight_iata", Text "DL7")] ].

Definition fresh_reply : http_reply :=
  Reply (Some (JObj [("response", fresh_response)])).

(** A directory where a file without a date sorts after the dated cache. *)
Definition undated_name : string := data_dir ++ "lax_flights_backup.csv".

Definition undated_files : list (string * mem_frame) :=
  (undated_name, stale_table) :: stale_files.

(** A world whose cache directory refuses new files. *)
Definition world_read_only (d : date) (r : http_reply) : World :=
  mkWorld d 1659430000000000000 (Some "key") r false.

Definition world (d : date) (r : http_reply) : World :=
  mkWorld d 1659430000000000000 (Some "key") r true.


(* ===================================================================== *)
(** * Part II-b: the cache file as pandas writes and reads it             *)
(* ===================================================================== *)

(** Modelled from the pandas documentation of [DataFrame.to_csv],
    [read_csv] and [to_datetime], the three calls [load_data] makes on a
    cache file (source lines 51, 34 and 47, 59-60).

    A frame is a list of named columns, each of one dtype: [object] (text
    or a missing value), [int64], [datetime64[ns]].  A column of another
    dtype ([float64], [bool]) is carried as [OtherCol] and the model says
    nothing of its values.  The file is taken as its fields, column by
    column: the quoting that [to_csv] adds is undone by the reader. *)

Inductive column :=
| ObjectCol (cells : list (option string))
| IntCol (cells : list Z)
| TimeCol (cells : list (option Timestamp))
| OtherCol (fields : list string).

Definition table : Type := list (string * column).
Definition csv_file : Type := list (string * list string).

(** *** Integers as text *)

Definition print_int (z : Z) : string := NilZero.string_of_int (Z.to_int z).

Definition parse_int (s : string) : option Z :=
  option_map Z.of_int (NilZero.int_of_string s).

Definition int64_min : Z := - 9223372036854775808.
Definition int64_max : Z := 9223372036854775807.

(** A field that is the decimal text of an [int64], as [to_csv] writes
    one. *)
Definition is_int_literal (s : string) : bool :=
  match parse_int s with
  | Some z => String.eqb (print_int z) s && (int64_min <=? z) && (z <=? int64_max)
  | None => false
  end.

(** *** What the reader takes for a missing value, a boolean, a number *)

(** The default [na_values] of [read_csv] ([None] since pandas 2.0). *)
Definition na_values : list string :=
  [ ""; "#N/A"; "#N/A N/A"; "#NA"; "-1.#IND"; "-1.#QNAN"; "-NaN"; "-nan";
    "1.#IND"; "1.#QNAN"; "<NA>"; "N/A"; "NA"; "NULL"; "NaN"; "None";
    "n/a"; "nan"; "null" ].

Definition is_na (s : string) : bool := existsb (String.eqb s) na_values.

Definition bool_words : list string :=
  [ "True"; "TRUE"; "true"; "False"; "FALSE"; "false" ].

Definition is_bool_word (s : string) : bool := existsb (String.eqb s) bool_words.

(** An upper bound on the fields the reader can take for a number: only
    digits, signs, a point, an exponent mark and blanks, with a sign only at
    the start, after a blank or after the exponent mark; or one of the
    words for infinity. *)
Definition numeric_char (c : ascii) : bool :=
  is_digit c || existsb (Ascii.eqb c) ["+"; "-"; "."; "e"; "E"; " "]%char.

Definition is_sign (c : ascii) : bool := Ascii.eqb c "+" || Ascii.eqb c "-".

Definition sign_place (prev : option ascii) : bool :=
  match prev with
  | None => true
  | Some p => existsb (Ascii.eqb p) [" "; "e"; "E"]%char
  end.

Fixpoint numeric_from (prev : option ascii) (l : list ascii) : bool :=
  match l with
  | [] => true
  | c :: l' =>
      numeric_char c && (negb (is_sign c) || sign_place prev)
      && numeric_from (Some c) l'
  end.

Definition inf_words : list string :=
  [ "inf"; "+inf"; "-inf"; "infinity"; "+infinity"; "-infinity" ].

Definition numeric_like (s : string) : bool :=
  numeric_from None (list_ascii_of_string s)
  || existsb (String.eqb (lower s)) inf_words.

(** A field that makes the reader keep its column as text. *)
Definition text_like (s : string) : bool :=
  negb (is_na s) && negb (is_bool_word s) && negb (numeric_like s).

(** *** Timestamps as text

    [to_csv] writes a [datetime64[ns]] column in ISO 8601 form, the same
    for the whole column: the date alone when every value is a midnight,
    else date and time to the second, followed by 3, 6 or 9 decimals when
    some value needs them. *)

Definition ns_per_second : Z := 1000000000.
Definition ns_per_day : Z := 24 * ns_per_hour.

(** Days since 1970-01-01 to year, month, day and back (proleptic
    Gregorian calendar). *)
Definition civil_from_days (z : Z) : Z * Z * Z :=
  let z := z + 719468 in
  let era := z / 146097 in
  let doe := z - era * 146097 in
  let yoe := (doe - doe / 1460 + doe / 36524 - doe / 146096) / 365 in
  let doy := doe - (365 * yoe + yoe / 4 - yoe / 100) in
  let mp := (5 * doy + 2) / 153 in
  let d := doy - (153 * mp + 2) / 5 + 1 in
  let m := if mp <? 10 then mp + 3 else mp - 9 in
  (yoe + era * 400 + (if m <=? 2 then 1 else 0), m, d).

Definition days_from_civil (y m d : Z) : Z :=
  let y := if m <=? 2 then y - 1 else y in
  let era := y / 400 in
  let yoe := y - era * 400 in
  let doy := (153 * (if 2 <? m then m - 3 else m + 9) + 2) / 5 + d - 1 in
  let doe := yoe * 365 + yoe / 4 - yoe / 100 + doy in
  era * 146097 + doe - 719468.

Inductive time_style :=
| DateOnly
| Seconds (decimals : nat).      (* 0, 3, 6 or 9 *)

(** [k] decimal digits of [n], most significant first. *)
Fixpoint digits (k : nat) (n : Z) : list ascii :=
  match k with
  | O => []
  | S k' => digit_char (n / 10 ^ Z.of_nat k') :: digits k' n
  end.

Definition format_time (style : time_style) (t : Timestamp) : string :=
  let r := t mod ns_per_day in
  let '(y, m, d) := civil_from_days (t / ns_per_day) in
  string_of_list_ascii
    (digits 4 y ++ "-"%char :: digits 2 m ++ "-"%char :: digits 2 d ++
     match style with
     | DateOnly => []
     | Seconds k =>
         " "%char :: digits 2 (r / ns_per_hour) ++
         ":"%char :: digits 2 ((r / ns_per_minute) mod 60) ++
         ":"%char :: digits 2 ((r / ns_per_second) mod 60) ++
         match k with
         | O => []
         | _ => "."%char :: digits k ((r mod ns_per_second) / 10 ^ Z.of_nat (9 - k))
         end
     end).

Definition column_style (cells : list (option Timestamp)) : time_style :=
  let ts := dropna cells in
  if forallb (fun t => t mod ns_per_day =? 0) ts then DateOnly
  else if existsb (fun t => negb (t mod 1000 =? 0)) ts then Seconds 9
  else if existsb (fun t => negb (t mod 1000000 =? 0)) ts then Seconds 6
  else if existsb (fun t => negb (t mod ns_per_second =? 0)) ts then Seconds 3
  else Seconds 0.

(** [pd.to_datetime] on one text, for the ISO 8601 forms
    [YYYY-MM-DD], [YYYY-MM-DD hh:mm], [YYYY-MM-DD hh:mm:ss] and
    [YYYY-MM-DD hh:mm:ss.f] (1 to 9 decimals), with a blank or [T] between
    date and time.  [None] stands for every other text: pandas raises on
    it or reads it by another format, which the model does not follow. *)
Fixpoint read_digits (k : nat) (acc : Z) (l : list ascii) : option (Z * list ascii) :=
  match k with
  | O => Some (acc, l)
  | S k' =>
      match l with
      | c :: l' => if is_digit c then read_digits k' (10 * acc + digit_val c) l' else None
      | [] => None
      end
  end.

Definition expect (c : ascii) (l : list ascii) : option (list ascii) :=
  match l with
  | c' :: l' => if Ascii.eqb c' c then Some l' else None
  | [] => None
  end.

Definition obind {A B} (o : option A) (k : A -> option B) : option B :=
  match o with Some a => k a | None => None end.

Definition read_fraction (l : list ascii) : option Z :=
  let k := List.length l in
  if (1 <=? k)%nat && (k <=? 9)%nat then
    match read_digits k 0 l with
    | Some (v, []) => Some (v * 10 ^ Z.of_nat (9 - k))
    | _ => None
    end
  else None.

Definition time_of_day (h m sec f : Z) : option Z :=
  if (h <? 24) && (m <? 60) && (sec <? 60)
  then Some (h * ns_per_hour + m * ns_per_minute + sec * ns_per_second + f)
  else None.

Definition read_time (l : list ascii) : option Z :=
  obind (read_digits 2 0 l) (fun '(h, l1) =>
  obind (expect ":" l1) (fun l2 =>
  obind (read_digits 2 0 l2) (fun '(m, l3) =>
  match l3 with
  | [] => time_of_day h m 0 0
  | _ =>
      obind (expect ":" l3) (fun l4 =>
      obind (read_digits 2 0 l4) (fun '(sec, l5) =>
      match l5 with
      | [] => time_of_day h m sec 0
      | c :: l6 =>
          if Ascii.eqb c "."
          then obind (read_fraction l6) (time_of_day h m sec)
          else None
      end))
  end))).

Definition parse_datetime (s : string) : option Timestamp :=
  obind (read_digits 4 0 (list_ascii_of_string s)) (fun '(y, l1) =>
  obind (expect "-" l1) (fun l2 =>
  obind (read_digits 2 0 l2) (fun '(m, l3) =>
  obind (expect "-" l3) (fun l4 =>
  obind (read_digits 2 0 l4) (fun '(d, l5) =>
  if (1 <=? y) && (1 <=? m) && (m <=? 12) && (1 <=? d) && (d <=? days_in_month y m)
  then
    obind (match l5 with
           | [] => Some 0
           | c :: l6 =>
               if Ascii.eqb c " " || Ascii.eqb c "T" then read_time l6 else None
           end) (fun tod =>
    let t := days_from_civil y m d * ns_per_day + tod in
    if (int64_min <? t) && (t <=? int64_max) then Some t else None)
  else None))))).

(** *** [to_csv], [read_csv], [to_datetime] *)

Definition render_column (c : column) : list string :=
  match c with
  | ObjectCol cells => map (fun x => match x with Some s => s | None => "" end) cells
  | IntCol cells => map print_int cells
  | TimeCol cells =>
      map (fun x => match x with
                    | Some t => format_time (column_style cells) t
                    | None => ""
                    end) cells
  | OtherCol fields => fields
  end.

Definition pandas_to_csv (t : table) : csv_file :=
  map (fun nc => (fst nc, render_column (snd nc))) t.

(** The dtype the reader settles on for a column of fields. *)
Definition infer_column (fields : list string) : column :=
  match fields with
  | [] => ObjectCol []
  | _ =>
      if existsb text_like fields
      then ObjectCol (map (fun s => if is_na s then None else Some s) fields)
      else if forallb is_int_literal fields
      then IntCol (map (fun s => match parse_int s with Some z => z | None => 0 end) fields)
      else OtherCol fields
  end.

Definition pandas_read_csv (f : csv_file) : table :=
  map (fun nf => (fst nf, infer_column (snd nf))) f.

Fixpoint parse_cells (cells : list (option string)) : option (list (option Timestamp)) :=
  match cells with
  | [] => Some []
  | None :: rest => option_map (cons None) (parse_cells rest)
  | Some s :: rest =>
      match parse_datetime s, parse_cells rest with
      | Some t, Some ts => Some (Some t :: ts)
      | _, _ => None
      end
  end.

(** [pd.to_datetime(column)] *)
Definition to_datetime_column (c : column) : exn + column :=
  match c with
  | TimeCol cells => inr (TimeCol cells)
  | ObjectCol cells =>
      match parse_cells cells with
      | Some ts => inr (TimeCol ts)
      | None => inl ValueError
      end
  | IntCol cells =>
      inr (TimeCol (map (fun z => if z =? int64_min then None else Some z) cells))
  | OtherCol _ => inl (PandasError 0)
  end.

(** [data[name] = pd.to_datetime(data[name])] *)
Fixpoint pandas_to_datetime (t : table) (name : string) : exn + table :=
  match t with
  | [] => inl KeyError
  | (n, c) :: rest =>
      if String.eqb n name
      then match to_datetime_column c with
           | inr c' => inr ((n, c') :: rest)
           | inl e => inl e
           end
      else match pandas_to_datetime rest name with
           | inr rest' => inr ((n, c) :: rest')
           | inl e => inl e
           end
  end.

(** Source lines 59-60 on a pandas frame. *)
Definition pandas_normalized (t : table) : exn + table :=
  match pandas_to_datetime t "dep_time" with
  | inr t' => pandas_to_datetime t' "timestamp_api_call"
  | inl e => inl e
  end.

(** One write and read of a cache file, then the conversion of the time
    columns that [load_data] applies to what it read. *)
Definition read_back (t : table) : exn + table :=
  pandas_normalized (pandas_read_csv (pandas_to_csv t)).

(** A fetched table, as [load_data] holds it when it writes the file: the
    columns of the response and the stamp of the call. *)
Definition fetched_table (terminal : string) : table :=
  [ ("dep_time", ObjectCol [Some "2022-08-02 10:05"; Some "2022-08-02 11:40"]);
    ("dep_terminal", ObjectCol [Some terminal; Some terminal]);
    ("flight_iata", ObjectCol [Some "DL7"; None]);
    ("delayed", IntCol [15; 0]);
    ("timestamp_api_call",
     TimeCol [Some 1659439600123456000; Some 1659439600123456000]) ].

(** *** Frames that one write and read gives back *)

(** The style suits the value: nothing of it is left unwritten. *)
Definition style_fits (style : time_style) (t : Timestamp) : Prop :=
  match style with
  | DateOnly => t mod ns_per_day = 0
  | Seconds k =>
      (k = 0 \/ k = 3 \/ k = 6 \/ k = 9)%nat /\
      (t mod ns_per_second) mod 10 ^ Z.of_nat (9 - k) = 0
  end.

(** The two columns [load_data] converts (source lines 59-60). *)
Definition time_names : list string := ["dep_time"; "timestamp_api_call"].

Definition is_time_name (name : string) : bool := existsb (String.eqb name) time_names.

(** A column that one write and read gives back: a text column with a
    cell the reader keeps as text and no cell spelled as a missing value;
    a non-empty [int64] column; a [datetime64[ns]] column with a value,
    under one of the two names that are converted after the read. *)
Definition safe_column (name : string) (c : column) : bool :=
  match c with
  | ObjectCol cells =>
      existsb text_like (render_column c)
      && forallb (fun x => match x with Some s => negb (is_na s) | None => true end) cells
  | IntCol cells =>
      negb (Nat.eqb (List.length cells) 0)
      && forallb (fun z => (int64_min <=? z) && (z <=? int64_max)) cells
  | TimeCol cells =>
      is_time_name name
      && existsb (fun x => match x with Some _ => true | None => false end) cells
      && forallb (fun x => match x with
                           | Some t => (int64_min <? t) && (t <=? int64_max)
                           | None => true
                           end) cells
  | OtherCol _ => false
  end.

Fixpoint distinct (names : list string) : bool :=
  match names with
  | [] => true
  | n :: rest => negb (existsb (String.eqb n) rest) && distinct rest
  end.

(** A frame of such columns, no two of one name. *)
Definition safe_table (t : table) : bool :=
  distinct (map fst t) && forallb (fun nc => safe_column (fst nc) (snd nc)) t.

(** Two columns that differ at most by a time column still held as the
    text written for it, under a name yet to be converted. *)
Definition same_after (pending : list string) (x y : string * column) : Prop :=
  fst x = fst y /\
  (snd x = snd y \/
   (In (fst x) pending /\ (exists cells, snd x = TimeCol cells) /\
    to_datetime_column (snd y) = inr (snd x))).

(* ===================================================================== *)
(** * Part III: properties of the aggregator                              *)
(* ===================================================================== *)

Local Open Scope nat_scope.

(** ** Lists, counting and sums *)

Lemma count_cons {A} (p : A -> bool) (x : A) (l : list A) :
  count p (x :: l) = (if p x then 1 else 0) + count p l.
Proof. unfold count; simpl; destruct (p x); reflexivity. Qed.

Lemma count_map {A B} (p : B -> bool) (f : A -> B) (l : list A) :
  count p (map f l) = count (fun x => p (f x)) l.
Proof.
  induction l as [|x l IH]; [reflexivity|].
  simpl map. rewrite !count_cons, IH. reflexivity.
Qed.

Lemma count_ext {A} (p q : A -> bool) (l : list A) :
  (forall x, In x l -> p x = q x) -> count p l = count q l.
Proof.
  unfold count. intros H. f_equal. apply filter_ext_in. exact H.
Qed.

Lemma count_ext_all {A} (p : A -> bool) (l : list A) :
  (forall x, In x l -> p x = true) -> count p l = List.length l.
Proof.
  intros H. induction l as [|x l IH]; [reflexivity|].
  rewrite count_cons, IH by (intros y Hy; apply H; now right).
  rewrite (H x) by now left. reflexivity.
Qed.

Lemma combine_seq_map {B} (f : nat -> B) (l : list nat) :
  combine l (map f l) = map (fun m => (m, f m)) l.
Proof. induction l as [|x l IH]; simpl; [reflexivity | now rewrite IH]. Qed.

Lemma list_sum_map_add {A} (f g : A -> nat) (l : list A) :
  list_sum (map (fun x => f x + g x) l) = list_sum (map f l) + list_sum (map g l).
Proof. induction l as [|x l IH]; simpl; [reflexivity | rewrite IH; lia]. Qed.

Lemma list_sum_map_zero {A} (l : list A) : list_sum (map (fun _ => 0) l) = 0.
Proof. induction l; simpl; auto. Qed.

(** Over a run of consecutive naturals exactly one index equals [k] when
    [k] lies in the run, none otherwise. *)
Lemma sum_indicator (k a n : nat) :
  list_sum (map (fun m => if Nat.eqb k m then 1 else 0) (seq a n))
  = if (a <=? k) && (k <? a + n) then 1 else 0.
Proof.
  revert a. induction n as [|n IH]; intros a; simpl.
  - destruct (a <=? k) eqn:E1, (k <? a + 0) eqn:E2; try reflexivity.
    apply Nat.leb_le in E1. apply Nat.ltb_lt in E2. lia.
  - rewrite IH.
    destruct (Nat.eqb_spec k a) as [->|Hne].
    + rewrite Nat.leb_refl.
      replace (S a <=? a) with false by (symmetry; apply Nat.leb_gt; lia).
      replace (a <? a + S n) with true by (symmetry; apply Nat.ltb_lt; lia).
      reflexivity.
    + destruct (a <=? k) eqn:E1, (S a <=? k) eqn:E2,
               (k <? a + S n) eqn:E3, (k <? S a + n) eqn:E4; simpl; try reflexivity;
        repeat match goal with
               | H : (_ <=? _) = true |- _ => apply Nat.leb_le in H
               | H : (_ <=? _) = false |- _ => apply Nat.leb_gt in H
               | H : (_ <? _) = true |- _ => apply Nat.ltb_lt in H
               | H : (_ <? _) = false |- _ => apply Nat.ltb_ge in H
               end; lia.
Qed.

(** ** The clock fields *)

Lemma minute_of_range (t : Timestamp) : (0 <= minute_of t < 60)%Z.
Proof. unfold minute_of. apply Z.mod_pos_bound. lia. Qed.

Lemma hour_of_range (t : Timestamp) : (0 <= hour_of t < 24)%Z.
Proof. unfold hour_of. apply Z.mod_pos_bound. lia. Qed.

(** A departure minute falls in the bin of its own number. *)
Lemma in_bin_minute (m : nat) (r : FlightRecord) :
  m < 60 -> in_bin 60 m (dt_minute r) = eq_int (dt_minute r) (Z.of_nat m).
Proof.
  intros Hm. unfold dt_minute. destruct (dep_time r) as [t|]; simpl; [|reflexivity].
  pose proof (minute_of_range t) as Hr.
  unfold bin_index.
  replace (0 <=? minute_of t)%Z with true by (symmetry; apply Z.leb_le; lia).
  replace (minute_of t <=? Z.of_nat 60)%Z with true by (symmetry; apply Z.leb_le; lia).
  replace (minute_of t =? Z.of_nat 60)%Z with false by (symmetry; apply Z.eqb_neq; lia).
  simpl andb. cbv iota.
  destruct (Z.eqb_spec (minute_of t) (Z.of_nat m)) as [E|E].
  - apply Nat.eqb_eq. rewrite E. apply Nat2Z.id.
  - apply Nat.eqb_neq. intros E'. apply E. rewrite <- E'. rewrite Z2Nat.id; lia.
Qed.

(** Each sample with a valid time lands in exactly one of the 60 bins. *)
Lemma one_bin_per_sample (r : FlightRecord) :
  list_sum (map (fun m => if in_bin 60 m (dt_minute r) then 1 else 0) (seq 0 60))
  = if has_time r then 1 else 0.
Proof.
  unfold has_time, dt_minute. destruct (dep_time r) as [t|]; simpl option_map.
  - pose proof (minute_of_range t) as Hr.
    transitivity (list_sum (map (fun m => if Nat.eqb (Z.to_nat (minute_of t)) m then 1 else 0)
                                (seq 0 60))).
    + f_equal. apply map_ext. intros m. unfold in_bin, bin_index.
      replace (0 <=? minute_of t)%Z with true by (symmetry; apply Z.leb_le; lia).
      replace (minute_of t <=? Z.of_nat 60)%Z with true by (symmetry; apply Z.leb_le; lia).
      replace (minute_of t =? Z.of_nat 60)%Z with false by (symmetry; apply Z.eqb_neq; lia).
      reflexivity.
    + rewrite sum_indicator.
      replace (Z.to_nat (minute_of t) <? 0 + 60) with true
        by (symmetry; apply Nat.ltb_lt; lia).
      reflexivity.
  - apply list_sum_map_zero.
Qed.

Lemma histogram_total (sub : Dataset) :
  list_sum (np_histogram (map dt_minute sub) 60) = count has_time sub.
Proof.
  unfold np_histogram.
  induction sub as [|r sub IH].
  - unfold count; simpl filter. apply list_sum_map_zero.
  - rewrite count_cons, <- IH, <- one_bin_per_sample, <- list_sum_map_add.
    f_equal. apply map_ext. intros m. simpl map. rewrite count_cons. reflexivity.
Qed.

Lemma calculate_data_by_hour_total
    (data : Dataset) (departure_hour : option Z) (terminal_selected : option string) :
  list_sum (map snd (rows (calculate_data_by_hour data departure_hour terminal_selected)))
  = count has_time (filter_data data departure_hour terminal_selected).
Proof.
  unfold calculate_data_by_hour, np_histogram. cbn [rows].
  rewrite combine_seq_map, map_map. cbn [snd].
  apply histogram_total.
Qed.

(** ** [filter_data] *)

Lemma filter_data_no_filter (data : Dataset) : filter_data data None None = data.
Proof. reflexivity. Qed.

(** With a non-zero hour and a non-empty terminal both tests are applied,
    one after the other. *)
Lemma filter_data_both (data : Dataset) (h : Z) (t : string) :
  h <> 0%Z -> t <> "" ->
  forall r, In r (filter_data data (Some h) (Some t)) <->
            In r data /\ dt_hour r = Some h /\ dep_terminal r = Some t.
Proof.
  intros Hh Ht r. unfold filter_data, truthy_int, truthy_str.
  apply Z.eqb_neq in Hh. apply String.eqb_neq in Ht. rewrite Hh, Ht. simpl negb. cbv iota.
  rewrite !filter_In. unfold eq_int, eq_str, int_value, str_value.
  destruct (dt_hour r) as [x|], (dep_terminal r) as [y|];
    rewrite ?Z.eqb_eq, ?String.eqb_eq; intuition (try congruence).
  all: repeat match goal with H : Some _ = Some _ |- _ => injection H as -> end; reflexivity.
Qed.

Lemma filter_data_hour_only (data : Dataset) (h : Z) :
  h <> 0%Z ->
  filter_data data (Some h) None = filter (fun r => eq_int (dt_hour r) h) data.
Proof.
  intros Hh. unfold filter_data, truthy_int. apply Z.eqb_neq in Hh. rewrite Hh. reflexivity.
Qed.

Lemma filter_data_incl (data : Dataset) (h : option Z) (t : option string) :
  incl (filter_data data h t) data.
Proof.
  intros r. unfold filter_data.
  destruct (truthy_int h), (truthy_str t); rewrite ?filter_In; tauto.
Qed.

(** C2, the failing case: hour 0 is a valid slider position, yet Python
    reads [if departure_hour:] as false for it, so no hour test is applied
    and departures of every hour are kept; here a 5 o'clock and an
    11 o'clock departure survive [filter_data(data, 0)]. *)
Theorem filter_data_hour_zero_unfiltered :
  (forall (data : Dataset) (t : option string),
      filter_data data (Some 0%Z) t = filter_data data None t) /\
  filter_data sample (Some 0%Z) None = sample /\
  map dt_hour (filter_data sample (Some 0%Z) None)
    = [Some 10; Some 11; Some 11; Some 5; Some 5]%Z.
Proof. repeat split. Qed.

(** ** [calculate_data_by_hour] *)

(** The shape of the histogram, relative to what [filter_data] returns:
    the table has the columns [minute] and [departures] and one row for
    each minute 0..59 in order; the row of minute [m] counts the rows of
    that subset whose departure minute is [m] (rows, not distinct
    flights); and the 60 counts add up to the number of rows of the subset
    that have a valid departure time. *)
Theorem calculate_data_by_hour_histogram
    (data : Dataset) (departure_hour : option Z) (terminal_selected : option string) :
  let sub := filter_data data departure_hour terminal_selected in
  let tbl := calculate_data_by_hour data departure_hour terminal_selected in
  columns tbl = ["minute"; "departures"] /\
  List.length (rows tbl) = 60 /\
  rows tbl = map (fun m => (m, count (fun r => eq_int (dt_minute r) (Z.of_nat m)) sub))
                 (seq 0 60) /\
  list_sum (map snd (rows tbl)) = count has_time sub.
Proof.
  intros sub tbl.
  assert (Hrows : rows tbl
                  = map (fun m => (m, count (fun r => eq_int (dt_minute r) (Z.of_nat m)) sub))
                        (seq 0 60)).
  { unfold tbl, calculate_data_by_hour, np_histogram. fold sub. cbn [rows].
    rewrite combine_seq_map. apply map_ext_in. intros m Hm.
    apply in_seq in Hm. f_equal. rewrite count_map.
    apply count_ext. intros r _. apply in_bin_minute. lia. }
  split; [reflexivity|]. split; [|split]; [| exact Hrows |].
  - rewrite Hrows, length_map, length_seq. reflexivity.
  - apply calculate_data_by_hour_total.
Qed.

(** For a non-zero hour and no terminal the histogram is that of the
    departures of the hour: the row of minute [m] counts the records of
    [data] whose departure hour is [h] and minute is [m], and the counts
    add up to the number of records of hour [h]. *)
Lemma calculate_data_by_hour_of_hour (data : Dataset) (h : Z) :
  h <> 0%Z ->
  rows (calculate_data_by_hour data (Some h) None)
  = map (fun m => (m, count (fun r => eq_int (dt_hour r) h
                                      && eq_int (dt_minute r) (Z.of_nat m)) data))
        (seq 0 60) /\
  list_sum (map snd (rows (calculate_data_by_hour data (Some h) None)))
  = count (fun r => eq_int (dt_hour r) h) data.
Proof.
  intros Hh. split.
  - destruct (calculate_data_by_hour_histogram data (Some h) None) as (_ & _ & Hrows & _).
    rewrite Hrows, filter_data_hour_only by exact Hh.
    apply map_ext. intros m. f_equal. clear Hrows.
    induction data as [|r data IH]; [reflexivity|].
    cbn [filter]. destruct (eq_int (dt_hour r) h) eqn:E;
      rewrite !count_cons, ?E; cbn [andb]; rewrite IH; reflexivity.
  - rewrite calculate_data_by_hour_total, filter_data_hour_only by exact Hh.
    unfold count at 2. apply (count_ext_all has_time).
    intros r Hr. apply filter_In in Hr as [_ Hr].
    unfold eq_int, dt_hour, has_time in *. destruct (dep_time r); [reflexivity | discriminate].
Qed.

(** C3, the failing case: hour 0 is in the range 0-23, yet
    [calculate_data_by_hour(data, 0)] is the histogram of the whole
    dataset, since [filter_data] applies no hour mask for 0.  On the sample
    no record departs in hour 0, and the 60 counts add up to 5; minute 30
    counts the two 05:30 departures. *)
Theorem calculate_data_by_hour_hour_zero :
  (forall (data : Dataset) (t : option string),
      calculate_data_by_hour data (Some 0%Z) t = calculate_data_by_hour data None t) /\
  List.length (rows (calculate_data_by_hour sample (Some 0%Z) None)) = 60 /\
  count (fun r => eq_int (dt_hour r) 0) sample = 0 /\
  list_sum (map snd (rows (calculate_data_by_hour sample (Some 0%Z) None))) = 5 /\
  nth_error (rows (calculate_data_by_hour sample (Some 0%Z) None)) 30 = Some (30, 2).
Proof. repeat split. Qed.

(** ** Group-by: keys and distinct counts *)

Section SortKeys.
Context {K : Type} (leb : K -> K -> bool).

Lemma insert_sorted_perm (k : K) (l : list K) :
  Permutation (insert_sorted leb k l) (k :: l).
Proof.
  induction l as [|x l IH]; simpl; [reflexivity|].
  destruct (leb k x); [reflexivity|].
  rewrite IH. apply perm_swap.
Qed.

Lemma sort_keys_perm (l : list K) : Permutation (sort_keys leb l) l.
Proof.
  induction l as [|x l IH]; simpl; [reflexivity|].
  rewrite insert_sorted_perm. now constructor.
Qed.

Lemma sort_keys_In (l : list K) (k : K) : In k (sort_keys leb l) <-> In k l.
Proof.
  split; apply Permutation_in; [|symmetry]; apply sort_keys_perm.
Qed.

Lemma sort_keys_NoDup (l : list K) : NoDup l -> NoDup (sort_keys leb l).
Proof.
  apply Permutation_NoDup. symmetry. apply sort_keys_perm.
Qed.
End SortKeys.

Lemma In_dropna {A} (s : list (option A)) (x : A) : In x (dropna s) <-> In (Some x) s.
Proof.
  induction s as [|[y|] s IH]; simpl.
  - tauto.
  - rewrite IH. split; intros [H|H]; auto; left; congruence.
  - rewrite IH. split; [auto | intros [H|H]; [discriminate | exact H]].
Qed.

Lemma In_dropna_map {A K} (key : A -> option K) (l : list A) (k : K) :
  In k (dropna (map key l)) <-> exists r, In r l /\ key r = Some k.
Proof.
  rewrite In_dropna, in_map_iff. split; intros [r H]; exists r; tauto.
Qed.

Lemma terminal_groups_In (sub : Dataset) (t : string) :
  In t (terminal_groups sub) <-> exists r, In r sub /\ dep_terminal r = Some t.
Proof.
  unfold terminal_groups. rewrite sort_keys_In, nodup_In. apply In_dropna_map.
Qed.

Lemma terminal_groups_NoDup (sub : Dataset) : NoDup (terminal_groups sub).
Proof. apply sort_keys_NoDup, NoDup_nodup. Qed.

Lemma terminal_airline_groups_In (sub : Dataset) (k : string * string) :
  In k (terminal_airline_groups sub) <->
  exists r, In r sub /\ dep_terminal r = Some (fst k) /\ airline_iata r = Some (snd k).
Proof.
  unfold terminal_airline_groups. rewrite sort_keys_In, nodup_In, In_dropna_map.
  destruct k as [t a]. simpl.
  split; intros (r & Hin & H); exists r; split; auto; unfold terminal_airline_key in *;
    destruct (dep_terminal r), (airline_iata r); try discriminate;
    try (destruct H; discriminate); [injection H as -> ->; auto|].
  destruct H as [H1 H2]. injection H1 as ->. injection H2 as ->. reflexivity.
Qed.

Lemma at_terminal_true (t : string) (r : FlightRecord) :
  at_terminal t r = true <-> dep_terminal r = Some t.
Proof.
  unfold at_terminal, terminal_key. destruct (dep_terminal r) as [t'|].
  - rewrite String.eqb_eq. split; congruence.
  - split; discriminate.
Qed.

(** The distinct flight identifiers of the rows of [sub] at terminal [t]. *)
Lemma nunique_at_terminal (sub : Dataset) (t : string) :
  exists ids : list string,
    NoDup ids /\
    (forall f, In f ids <->
               exists r, In r sub /\ dep_terminal r = Some t /\ flight_iata r = Some f) /\
    nunique (map flight_iata (filter (at_terminal t) sub)) = List.length ids.
Proof.
  exists (nodup string_dec (dropna (map flight_iata (filter (at_terminal t) sub)))).
  split; [apply NoDup_nodup|]. split; [|reflexivity].
  intros f. rewrite nodup_In, In_dropna_map.
  split; intros (r & H1 & H2).
  - apply filter_In in H1 as [H1 H3]. apply at_terminal_true in H3. eauto.
  - destruct H2 as [H2 H3]. exists r. split; [|exact H3].
    apply filter_In. split; [exact H1 | now apply at_terminal_true].
Qed.

Lemma count_one_singleton {A} (p : A -> bool) (l : list A) :
  count p l = 1 -> exists x, filter p l = [x].
Proof.
  unfold count. destruct (filter p l) as [|x [|y l']]; simpl; try discriminate.
  intros _. now exists x.
Qed.

(** ** [group_data_by_terminal] *)

(** C4: for every dataset and hour, the terminal summary is built from
    [filter_data data hour None], the subset cut by hour only: it has
    one row for each terminal that occurs in that subset, and the row's
    [count_flights] is the number of distinct flight identifiers among the
    subset's rows at that terminal, so repeated identifiers count once.  On
    a dataset whose records are all at terminal B in hours 10 and 11, with
    exactly one record in hour 10, and that record carrying a flight
    identifier, the summary for hour 10 is the single row (B, 1). *)
Theorem group_data_by_terminal_distinct (data : Dataset) (departure_hour : option Z) :
  let sub := filter_data data departure_hour None in
  let tbl := group_data_by_terminal data departure_hour in
  columns tbl = ["dep_terminal"; "count_flights"] /\
  NoDup (map fst (rows tbl)) /\
  (forall t, In t (map fst (rows tbl)) <->
             exists r, In r sub /\ dep_terminal r = Some t) /\
  (forall t c, In (t, c) (rows tbl) ->
     exists ids : list string,
       NoDup ids /\
       (forall f, In f ids <->
                  exists r, In r sub /\ dep_terminal r = Some t /\ flight_iata r = Some f) /\
       c = List.length ids) /\
  ((forall r, In r data ->
      dep_terminal r = Some "B" /\ (dt_hour r = Some 10%Z \/ dt_hour r = Some 11%Z)) ->
   count (fun r => eq_int (dt_hour r) 10) data = 1 ->
   (forall r, In r data -> dt_hour r = Some 10%Z -> flight_iata r <> None) ->
   rows (group_data_by_terminal data (Some 10%Z)) = [("B", 1)]).
Proof.
  intros sub tbl.
  assert (Hfst : map fst (rows tbl) = terminal_groups sub).
  { unfold tbl, group_data_by_terminal. fold sub. cbn [rows].
    rewrite map_map. cbn [fst]. apply map_id. }
  split; [reflexivity|]. split; [|split; [|split]].
  - rewrite Hfst. apply terminal_groups_NoDup.
  - intros t. rewrite Hfst. apply terminal_groups_In.
  - intros t c Hin. unfold tbl, group_data_by_terminal in Hin. fold sub in Hin.
    cbn [rows] in Hin. apply in_map_iff in Hin as (t' & Heq & _).
    injection Heq as -> <-. apply nunique_at_terminal.
  - intros Hall Hone Hid.
    unfold group_data_by_terminal. rewrite filter_data_hour_only by discriminate.
    cbn [rows].
    destruct (count_one_singleton _ _ Hone) as [r0 Hr0]. rewrite Hr0.
    assert (Hin : In r0 (filter (fun r => eq_int (dt_hour r) 10) data))
      by (rewrite Hr0; now left).
    apply filter_In in Hin as [Hin Hh].
    destruct (Hall r0 Hin) as [HB _].
    assert (Hh' : dt_hour r0 = Some 10%Z).
    { unfold eq_int in Hh. destruct (dt_hour r0); [|discriminate].
      apply Z.eqb_eq in Hh. congruence. }
    specialize (Hid r0 Hin Hh').
    unfold terminal_groups, terminal_key, at_terminal, terminal_key, nunique.
    cbn [map dropna]. rewrite HB. cbn [dropna]. 
    destruct (flight_iata r0) as [f|] eqn:Hf; [|congruence].
    cbn. rewrite HB. cbn. rewrite Hf. reflexivity.
Qed.

Lemma group_data_by_terminal_distinct_witness :
  rows (group_data_by_terminal scenario_a (Some 10%Z)) = [("B", 1)].
Proof.
  pose proof (group_data_by_terminal_distinct scenario_a (Some 10%Z)) as H.
  cbv zeta in H. destruct H as (_ & _ & _ & _ & H). apply H.
  - intros r [<-|[<-|[<-|[]]]]; split; try reflexivity; [left | right | right]; reflexivity.
  - reflexivity.
  - intros r [<-|[<-|[<-|[]]]] _; discriminate.
Defined.

(** C4, as stated, fails when the one hour-10 record has no flight
    identifier: [nunique] skips the missing value and the row is (B, 0). *)
Lemma group_data_by_terminal_missing_id :
  (forall r, In r scenario_a_no_id ->
     dep_terminal r = Some "B" /\ (dt_hour r = Some 10%Z \/ dt_hour r = Some 11%Z)) /\
  count (fun r => eq_int (dt_hour r) 10) scenario_a_no_id = 1 /\
  rows (group_data_by_terminal scenario_a_no_id (Some 10%Z)) = [("B", 0)] /\
  rows (group_data_by_terminal scenario_a_no_id (Some 10%Z)) <> [("B", 1)].
Proof.
  split; [|split; [|split]].
  - intros r [<-|[<-|[<-|[]]]]; split; try reflexivity; [left | right | right]; reflexivity.
  - reflexivity.
  - reflexivity.
  - discriminate.
Qed.

(** ** Empty subsets *)

(** C5: when the subset selected by hour and terminal is empty, the
    histogram is the 60 rows (m, 0); when the subset selected by the
    hour is empty, the terminal summary and the airline summary have no
    rows, and the airline summary still lists its [airport] column, which
    the code sets on the table whatever its rows. *)
Theorem empty_subset_aggregates
    (data : Dataset) (departure_hour : option Z) (terminal_selected : option string) :
  (filter_data data departure_hour terminal_selected = [] ->
   rows (calculate_data_by_hour data departure_hour terminal_selected)
   = map (fun m => (m, 0)) (seq 0 60)) /\
  (filter_data data departure_hour None = [] ->
   rows (group_data_by_terminal data departure_hour) = [] /\
   rows (group_data_by_airline data departure_hour) = [] /\
   columns (group_data_by_airline data departure_hour)
   = ["dep_terminal"; "airline_iata"; "count_flights"; "airport"]).
Proof.
  split; intros H.
  - unfold calculate_data_by_hour. rewrite H. reflexivity.
  - unfold group_data_by_terminal, group_data_by_airline. rewrite H.
    repeat split.
Qed.

Lemma empty_subset_aggregates_witness :
  rows (calculate_data_by_hour sample (Some 3%Z) (Some "B")) = map (fun m => (m, 0)) (seq 0 60) /\
  rows (group_data_by_terminal sample (Some 3%Z)) = [] /\
  rows (group_data_by_airline sample (Some 3%Z)) = [] /\
  columns (group_data_by_airline sample (Some 3%Z))
  = ["dep_terminal"; "airline_iata"; "count_flights"; "airport"].
Proof.
  destruct (empty_subset_aggregates sample (Some 3%Z) (Some "B")) as [H1 H2].
  split; [apply H1; reflexivity | apply H2; reflexivity].
Defined.

(** C5, as stated, fails on the label column: with no departure in hour 3
    the airline summary has no rows, yet [airport] is among its columns. *)
Lemma airline_summary_keeps_airport_column :
  filter_data sample (Some 3%Z) None = [] /\
  rows (group_data_by_airline sample (Some 3%Z)) = [] /\
  In "airport" (columns (group_data_by_airline sample (Some 3%Z))).
Proof.
  split; [reflexivity|]. split; [reflexivity|]. simpl. tauto.
Qed.

(** ** Missing terminals *)

Lemma dropna_terminal_named (sub : Dataset) :
  dropna (map terminal_key (filter has_terminal sub)) = dropna (map terminal_key sub).
Proof.
  induction sub as [|r sub IH]; [reflexivity|].
  simpl. unfold has_terminal. unfold terminal_key at 2 4.
  destruct (dep_terminal r) eqn:E; simpl; unfold terminal_key at 1;
    rewrite ?E; [f_equal|]; exact IH.
Qed.

Lemma dropna_terminal_airline_named (sub : Dataset) :
  dropna (map terminal_airline_key (filter has_terminal sub))
  = dropna (map terminal_airline_key sub).
Proof.
  induction sub as [|r sub IH]; [reflexivity|].
  cbn [filter]. unfold has_terminal at 1.
  destruct (dep_terminal r) eqn:E.
  - cbn [map]. destruct (terminal_airline_key r); cbn [dropna]; rewrite IH; reflexivity.
  - cbn [map].
    assert (Hk : terminal_airline_key r = None)
      by (unfold terminal_airline_key; rewrite E; reflexivity).
    rewrite Hk. cbn [dropna]. exact IH.
Qed.

Lemma filter_named (p : FlightRecord -> bool) (sub : Dataset) :
  (forall r, p r = true -> has_terminal r = true) ->
  filter p (filter has_terminal sub) = filter p sub.
Proof.
  intros Hp. induction sub as [|r sub IH]; [reflexivity|].
  simpl. destruct (has_terminal r) eqn:E; simpl; rewrite IH; [reflexivity|].
  destruct (p r) eqn:E'; [|reflexivity]. apply Hp in E'. congruence.
Qed.

Lemma at_terminal_named (t : string) (r : FlightRecord) :
  at_terminal t r = true -> has_terminal r = true.
Proof.
  unfold at_terminal, terminal_key, has_terminal. destruct (dep_terminal r); auto.
Qed.

Lemma at_terminal_airline_named (k : string * string) (r : FlightRecord) :
  at_terminal_airline k r = true -> has_terminal r = true.
Proof.
  unfold at_terminal_airline, terminal_airline_key, has_terminal.
  destruct (dep_terminal r); auto.
Qed.

Lemma count_split {A} (p q : A -> bool) (l : list A) :
  count p l = count (fun x => p x && q x) l + count (fun x => p x && negb (q x)) l.
Proof.
  induction l as [|x l IH]; [reflexivity|].
  rewrite !count_cons, IH. destruct (p x), (q x); simpl; lia.
Qed.

Lemma list_sum_lengths {A B} (g : A -> list B) (l : list A) :
  list_sum (map (fun x => List.length (g x)) l) = List.length (flat_map g l).
Proof.
  induction l as [|x l IH]; [reflexivity|].
  simpl. rewrite length_app, IH. reflexivity.
Qed.

Lemma NoDup_flat_map {A B} (g : A -> list B) (l : list A) :
  NoDup l ->
  (forall x, In x l -> NoDup (g x)) ->
  (forall x y b, In x l -> In y l -> In b (g x) -> In b (g y) -> x = y) ->
  NoDup (flat_map g l).
Proof.
  intros Hl. induction Hl as [|x l Hx Hl IH]; intros Hg Hdisj; simpl; [constructor|].
  apply NoDup_app.
  - apply Hg. now left.
  - apply IH.
    + intros y Hy. apply Hg. now right.
    + intros y z b Hy Hz. apply Hdisj; now right.
  - intros b Hb Hb'. apply in_flat_map in Hb' as (y & Hy & Hby).
    assert (x = y) by (apply (Hdisj x y b); simpl; auto).
    subst. contradiction.
Qed.

(** The summary's counts add up to the length of the per-terminal lists of
    distinct identifiers laid end to end. *)
Lemma terminal_counts_total (data : Dataset) (h : option Z) :
  list_sum (map snd (rows (group_data_by_terminal data h)))
  = List.length
      (flat_map (fun t => nodup string_dec
                            (dropna (map flight_iata
                                      (filter (at_terminal t) (filter_data data h None)))))
                (terminal_groups (filter_data data h None))).
Proof.
  unfold group_data_by_terminal. cbn [rows]. rewrite map_map. cbn [snd].
  unfold nunique. apply list_sum_lengths.
Qed.

(** C8: for every dataset and hour, with [sub] the subset cut by the
    hour: the terminal summary and the airline summary are those of
    [sub] without its rows of missing terminal, so such rows are left out of
    both; the histogram still counts them when their time is valid; the
    number of distinct flight identifiers in [sub] is at most the sum of
    [count_flights] plus the number of rows of missing terminal; and the
    sum equals that number when no terminal is missing and no flight
    identifier occurs at two terminals. *)
Theorem terminal_summary_missing_terminals (data : Dataset) (departure_hour : option Z) :
  let sub := filter_data data departure_hour None in
  let named := filter has_terminal sub in
  let total := list_sum (map snd (rows (group_data_by_terminal data departure_hour))) in
  group_data_by_terminal data departure_hour = group_data_by_terminal named None /\
  group_data_by_airline data departure_hour = group_data_by_airline named None /\
  list_sum (map snd (rows (calculate_data_by_hour data departure_hour None)))
  = count (fun r => has_time r && has_terminal r) sub
    + count (fun r => has_time r && negb (has_terminal r)) sub /\
  nunique (map flight_iata sub) <= total + count (fun r => negb (has_terminal r)) sub /\
  ((forall r, In r sub -> dep_terminal r <> None) ->
   (forall r1 r2 f, In r1 sub -> In r2 sub ->
      flight_iata r1 = Some f -> flight_iata r2 = Some f ->
      dep_terminal r1 = dep_terminal r2) ->
   total = nunique (map flight_iata sub)).
Proof.
  intros sub named total.
  pose (ids := fun t => nodup string_dec
                          (dropna (map flight_iata (filter (at_terminal t) sub)))).
  assert (Htotal : total = List.length (flat_map ids (terminal_groups sub)))
    by apply terminal_counts_total.
  assert (Hids : forall t f, In f (ids t) <->
                 exists r, In r sub /\ dep_terminal r = Some t /\ flight_iata r = Some f).
  { intros t f. unfold ids. rewrite nodup_In, In_dropna_map.
    split; intros (r & H1 & H2).
    - apply filter_In in H1 as [H1 H3]. apply at_terminal_true in H3. eauto.
    - destruct H2 as [H2 H3]. exists r. split; [|exact H3].
      apply filter_In. split; [exact H1 | now apply at_terminal_true]. }
  split; [|split; [|split; [|split]]].
  - unfold group_data_by_terminal. rewrite filter_data_no_filter. fold sub. fold named.
    unfold terminal_groups, named. rewrite dropna_terminal_named. f_equal.
    apply map_ext. intros t. rewrite filter_named; [reflexivity|].
    apply at_terminal_named.
  - unfold group_data_by_airline. rewrite filter_data_no_filter. fold sub. fold named.
    unfold terminal_airline_groups, named. rewrite dropna_terminal_airline_named.
    do 2 f_equal. apply map_ext. intros k. rewrite filter_named; [reflexivity|].
    apply at_terminal_airline_named.
  - rewrite calculate_data_by_hour_total. apply count_split.
  - rewrite Htotal. unfold nunique.
    set (lost := dropna (map flight_iata (filter (fun r => negb (has_terminal r)) sub))).
    transitivity (List.length (flat_map ids (terminal_groups sub) ++ lost)).
    + apply NoDup_incl_length; [apply NoDup_nodup|].
      intros f Hf. apply nodup_In, In_dropna_map in Hf as (r & Hr & Hf).
      apply in_or_app. destruct (dep_terminal r) as [t|] eqn:Et.
      * left. apply in_flat_map. exists t. split.
        -- apply terminal_groups_In. eauto.
        -- apply Hids. eauto.
      * right. unfold lost. apply In_dropna_map. exists r. split; [|exact Hf].
        apply filter_In. split; [exact Hr|]. unfold has_terminal. now rewrite Et.
    + rewrite length_app. apply Nat.add_le_mono_l.
      unfold lost, count.
      generalize (filter (fun r => negb (has_terminal r)) sub). intros l.
      induction l as [|r l IH]; simpl; [lia|].
      destruct (flight_iata r); simpl; lia.
  - intros Hnamed Hone. rewrite Htotal. unfold nunique.
    apply Nat.le_antisymm.
    + apply NoDup_incl_length.
      * apply NoDup_flat_map.
        -- apply terminal_groups_NoDup.
        -- intros t _. apply NoDup_nodup.
        -- intros t t' f _ _ Hf Hf'.
           apply Hids in Hf as (r & Hr & Ht & Hf).
           apply Hids in Hf' as (r' & Hr' & Ht' & Hf').
           pose proof (Hone r r' f Hr Hr' Hf Hf') as E. congruence.
      * intros f Hf. apply in_flat_map in Hf as (t & _ & Hf).
        apply Hids in Hf as (r & Hr & _ & Hf).
        apply nodup_In, In_dropna_map. eauto.
    + apply NoDup_incl_length; [apply NoDup_nodup|].
      intros f Hf. apply nodup_In, In_dropna_map in Hf as (r & Hr & Hf).
      destruct (dep_terminal r) as [t|] eqn:Et; [|now apply Hnamed in Hr].
      apply in_flat_map. exists t. split.
      * apply terminal_groups_In. eauto.
      * apply Hids. eauto.
Qed.

Lemma terminal_summary_missing_terminals_witness :
  list_sum (map snd (rows (group_data_by_terminal scenario_a None)))
  = nunique (map flight_iata (filter_data scenario_a None None)).
Proof.
  pose proof (terminal_summary_missing_terminals scenario_a None) as H.
  cbv zeta in H. destruct H as (_ & _ & _ & _ & H). apply H.
  - intros r [<-|[<-|[<-|[]]]]; discriminate.
  - intros r1 r2 f [<-|[<-|[<-|[]]]] [<-|[<-|[<-|[]]]] _ _; reflexivity.
Defined.

(** C8, as stated, fails on its equality: no terminal is missing, the one
    flight identifier is listed at terminals 1 and 2, and the counts add up
    to 2 against 1 distinct identifier. *)
Lemma terminal_summary_sum_exceeds_distinct :
  (forall r, In r (filter_data two_terminals None None) -> dep_terminal r <> None) /\
  list_sum (map snd (rows (group_data_by_terminal two_terminals None))) = 2 /\
  nunique (map flight_iata (filter_data two_terminals None None)) = 1.
Proof.
  split; [|split; reflexivity].
  intros r [<-|[<-|[]]]; discriminate.
Qed.

(* ===================================================================== *)
(** * Part IV: properties of the dataset provider                         *)
(* ===================================================================== *)

Section ProviderProperties.
Variable L : Libs.

Ltac run :=
  unfold load_data, fetch, normalize, pd_read_csv, write_csv, requests_get,
    result_json, json_get, or_raise, lift, emit, bind, ret, raise in *;
  cbn [fst snd files trace] in *.

Lemma count_app {A} (p : A -> bool) (l1 l2 : list A) :
  count p (l1 ++ l2) = count p l1 + count p l2.
Proof. unfold count. rewrite filter_app, length_app. reflexivity. Qed.

(** The cache scan never raises, writes nothing and logs the one glob. *)
Lemma latest_csv_run (csv_filename csv_filepath : string) (s : State L) :
  exists latest,
    latest_csv L csv_filename csv_filepath s
    = (inr latest,
       mkState (files s)
               (trace s ++ [EvGlob (os_path_join csv_filepath csv_filename)])) /\
    (fst latest = None -> snd latest = None).
Proof.
  unfold latest_csv, try_except, glob. run.
  destruct (py_max _) as [name|]; [|eexists; split; [reflexivity | auto]].
  destruct (strptime_Ymd _) as [d|]; eexists; split; try reflexivity; auto.
  discriminate.
Qed.

Lemma normalize_run (data : frame L) (s : State L) :
  normalize L data s = (normalized L data, s).
Proof.
  unfold normalized. run.
  destruct (to_datetime L data "dep_time") as [e|d]; [reflexivity|].
  destruct (to_datetime L d "timestamp_api_call"); reflexivity.
Qed.

(** Reading a cache file and converting its time columns. *)
Lemma read_then_normalize (path : string) (s : State L) :
  bind (pd_read_csv L (Some path)) (normalize L) s
  = (cached_dataset L (files s) path,
     mkState (files s) (trace s ++ [EvReadFile path])).
Proof.
  unfold cached_dataset, pd_read_csv, emit, bind. cbn [fst snd files trace].
  destruct (lookup path (files s)) as [content|]; [|reflexivity].
  destruct (read_csv L content) as [e|d]; [reflexivity|].
  rewrite normalize_run. reflexivity.
Qed.

Lemma latest_csv_start (csv_filename csv_filepath : string)
    (fs : list (string * text L)) (latest : option string * option date) :
  fst (latest_csv L csv_filename csv_filepath (start L fs)) = inr latest ->
  latest_csv L csv_filename csv_filepath (start L fs)
  = (inr latest, mkState fs [EvGlob (os_path_join csv_filepath csv_filename)]).
Proof.
  intros H.
  destruct (latest_csv_run csv_filename csv_filepath (start L fs)) as (l & Hrun & _).
  rewrite Hrun in H |- *. cbn in H. injection H as ->. reflexivity.
Qed.

Lemma load_data_steps (w : World) (csv_filename csv_filepath airport_iata : string)
    (fs : list (string * text L)) (latest : option string * option date) :
  fst (latest_csv L csv_filename csv_filepath (start L fs)) = inr latest ->
  load_data L w csv_filename csv_filepath airport_iata (start L fs)
  = bind (if date_is (snd latest) (today w)
          then pd_read_csv L (fst latest)
          else fetch L w csv_filepath airport_iata (fst latest))
         (normalize L)
         (mkState fs [EvGlob (os_path_join csv_filepath csv_filename)]).
Proof.
  intros H. apply latest_csv_start in H.
  unfold load_data. unfold bind at 1. rewrite H. reflexivity.
Qed.

Lemma date_eqb_refl (d : date) : date_eqb d d = true.
Proof. unfold date_eqb. rewrite !Z.eqb_refl. reflexivity. Qed.

(** With an empty response the API branch logs the anomaly and reads the
    latest cache. *)
Lemma fetch_empty_response (w : World) (csv_filepath airport_iata : string)
    (latest_csv_name : option string) (s : State L) :
  empty_response (remote w) = true ->
  bind (fetch L w csv_filepath airport_iata latest_csv_name) (normalize L) s
  = bind (pd_read_csv L latest_csv_name) (normalize L)
         (mkState (files s)
                  ((trace s ++ [http_event airport_iata w])
                     ++ [EvLogError "Airlabs API returned no data: "])).
Proof.
  intros H. unfold empty_response in H.
  destruct (remote w) as [|[[| | | | |members]|]] eqn:Er; try discriminate.
  unfold fetch, requests_get, result_json, json_get, or_raise, emit.
  unfold bind at 1 2 3 4 5. cbn [fst snd files trace]. rewrite Er.
  unfold ret at 1 2. cbn.
  destruct (lookup "response" members) as [[| | | | |]|]; try discriminate;
    reflexivity.
Qed.

Ltac break_run w :=
  repeat (match goal with
          | |- context [date_is ?a ?b] => destruct (date_is a b)
          | |- context [remote w] => destruct (remote w) as [|[[]|]]
          | |- context [writable w] => destruct (writable w)
          | |- context [lookup ?k ?l] => destruct (lookup k l)
          | |- context [read_csv L ?c] => destruct (read_csv L c)
          | |- context [pd_DataFrame L ?c] => destruct (pd_DataFrame L c)
          | |- context [to_datetime L ?a ?b] => destruct (to_datetime L a b)
          | |- context [is_None ?j] => destruct j
          | |- context [match ?o with Some _ => _ | None => _ end] =>
              is_var o; destruct o
          end; cbn).

(** Whatever the world, a run of [load_data] issues at most one GET. *)
Lemma load_data_one_call (w : World) (csv_filename csv_filepath airport_iata : string)
    (fs : list (string * text L)) :
  api_calls L (load_data L w csv_filename csv_filepath airport_iata (start L fs)) <= 1.
Proof.
  destruct (latest_csv_run csv_filename csv_filepath (start L fs)) as (latest & Hrun & _).
  rewrite (load_data_steps w _ _ airport_iata fs latest) by (now rewrite Hrun).
  destruct latest as [latest_name latest_date].
  unfold api_calls. run. break_run w; lia.
Qed.

Lemma rerun_kept (csv_filename csv_filepath airport_iata : string)
    (ws : list World) (p : Process L) (data : frame L) :
  kept p = Some data ->
  reruns L csv_filename csv_filepath airport_iata ws p = p.
Proof.
  intros H. induction ws as [|w ws IH]; [reflexivity|].
  simpl. unfold rerun. rewrite H. exact IH.
Qed.

(** What the counters of a process satisfy after any reruns: with nothing
    kept every GET belongs to a rerun that raised; with a value kept there
    is at most one GET more. *)
Lemma reruns_gets (csv_filename csv_filepath airport_iata : string)
    (ws : list World) (p : Process L) :
  (kept p = None -> gets p <= raised p) ->
  gets p <= S (raised p) ->
  let q := reruns L csv_filename csv_filepath airport_iata ws p in
  (kept q = None -> gets q <= raised q) /\ gets q <= S (raised q).
Proof.
  revert p. induction ws as [|w ws IH]; intros p H1 H2; [split; assumption|].
  cbn [reruns]. unfold rerun. destruct (kept p) as [d|] eqn:K.
  - cbn [snd]. apply IH; [rewrite K; discriminate | exact H2].
  - specialize (H1 eq_refl).
    pose proof (load_data_one_call w csv_filename csv_filepath airport_iata (disk p)) as Hc.
    destruct (fst (load_data L w csv_filename csv_filepath airport_iata (start L (disk p))))
      as [e|data]; cbn [snd]; apply IH; cbn [kept gets raised];
      try (intros; discriminate); try (intros _); lia.
Qed.

(** C6: when the cache scan finds a latest file dated today, [load_data]
    returns the dataset held by that file, issues no GET and writes no
    file (the run globs, then reads that file, and the directory is as it
    was).  No run of the body issues more than one GET.  In a process the
    singleton keeps the first dataset returned, and no rerun after that
    runs the body; a rerun that raises keeps nothing, so the GETs of a
    process number at most one more than its reruns that raised. *)
Theorem load_data_todays_cache (w : World)
    (csv_filename csv_filepath airport_iata : string)
    (fs : list (string * text L)) (name : string) :
  let r := load_data L w csv_filename csv_filepath airport_iata (start L fs) in
  api_calls L r <= 1 /\
  (fst (latest_csv L csv_filename csv_filepath (start L fs))
     = inr (Some name, Some (today w)) ->
   fst r = cached_dataset L fs name /\
   api_calls L r = 0 /\
   file_writes L r = 0 /\
   files (snd r) = fs /\
   trace (snd r) = [EvGlob (os_path_join csv_filepath csv_filename); EvReadFile name]) /\
  (forall (ws : list World) (p : Process L) (data : frame L),
      kept p = Some data ->
      reruns L csv_filename csv_filepath airport_iata ws p = p) /\
  (forall ws : list World,
      let q := reruns L csv_filename csv_filepath airport_iata ws (boot L fs) in
      gets q <= S (raised q)).
Proof.
  intros r. split; [apply load_data_one_call|]. split; [|split].
  - intros H. unfold r.
    rewrite (load_data_steps w _ _ airport_iata fs _ H).
    cbn [fst snd date_is]. rewrite date_eqb_refl.
    rewrite read_then_normalize. unfold api_calls, file_writes.
    cbn [fst snd files trace]. repeat split.
  - intros ws p data. apply rerun_kept.
  - intros ws.
    apply (reruns_gets csv_filename csv_filepath airport_iata ws (boot L fs));
      cbn; lia.
Qed.

(** C10: when the latest cache is not of today and the API reply has no
    [response], the dataset returned is the one held by the latest cache
    file, its time columns converted: its [timestamp_api_call] is what
    the file stores.  The time of the failed call plays no part: a run
    that differs only in the clock reading returns the same.  The run
    issues the one GET and writes no file. *)
Theorem load_data_stale_fetch_time (w : World)
    (csv_filename csv_filepath airport_iata : string)
    (fs : list (string * text L)) (name : string) (d : date) :
  fst (latest_csv L csv_filename csv_filepath (start L fs)) = inr (Some name, Some d) ->
  date_eqb d (today w) = false ->
  empty_response (remote w) = true ->
  let r := load_data L w csv_filename csv_filepath airport_iata (start L fs) in
  fst r = cached_dataset L fs name /\
  (forall t : Timestamp,
      fst (load_data L (with_now w t) csv_filename csv_filepath airport_iata (start L fs))
      = fst r) /\
  api_calls L r = 1 /\
  file_writes L r = 0.
Proof.
  intros H Hd He r.
  assert (Hrun : forall t,
             load_data L (with_now w t) csv_filename csv_filepath airport_iata (start L fs)
             = (cached_dataset L fs name,
                mkState fs [EvGlob (os_path_join csv_filepath csv_filename);
                            http_event airport_iata w;
                            EvLogError "Airlabs API returned no data: ";
                            EvReadFile name])).
  { intros t. rewrite (load_data_steps _ _ _ airport_iata fs _ H).
    cbn [fst snd date_is with_now today]. rewrite Hd.
    rewrite fetch_empty_response by exact He.
    rewrite read_then_normalize. reflexivity. }
  assert (Hw : with_now w (now w) = w) by (destruct w; reflexivity).
  assert (Hr : r = (cached_dataset L fs name,
                    mkState fs [EvGlob (os_path_join csv_filepath csv_filename);
                                http_event airport_iata w;
                                EvLogError "Airlabs API returned no data: ";
                                EvReadFile name])).
  { unfold r. rewrite <- Hw at 1. apply Hrun. }
  rewrite Hr. cbn [fst]. split; [reflexivity|]. split.
  - intros t. rewrite Hrun. reflexivity.
  - split; reflexivity.
Qed.

(** C1: when the latest cache is not of today, a reply that is a JSON
    object without a [response] (absent or null) makes the provider
    fall back: if a latest cache exists, its dataset is returned.  A
    failed connection and a body that is not JSON are not caught: the
    exception reaches the caller and the cache is not read. *)
Theorem load_data_stale_outcomes (w : World)
    (csv_filename csv_filepath airport_iata : string)
    (fs : list (string * text L)) (latest : option string * option date) :
  fst (latest_csv L csv_filename csv_filepath (start L fs)) = inr latest ->
  date_is (snd latest) (today w) = false ->
  let r := load_data L w csv_filename csv_filepath airport_iata (start L fs) in
  (empty_response (remote w) = true ->
   forall name, fst latest = Some name ->
     fst r = cached_dataset L fs name /\ count (is_read_of name) (trace (snd r)) = 1) /\
  (remote w = ConnectionFailed ->
   fst r = inl RequestException /\
   trace (snd r) = [EvGlob (os_path_join csv_filepath csv_filename);
                    http_event airport_iata w]) /\
  (remote w = Reply None ->
   fst r = inl JSONDecodeError /\
   trace (snd r) = [EvGlob (os_path_join csv_filepath csv_filename);
                    http_event airport_iata w]).
Proof.
  intros H Hd r. unfold r.
  rewrite (load_data_steps w _ _ airport_iata fs _ H). rewrite Hd.
  split; [|split].
  - intros He name Hname.
    rewrite fetch_empty_response by exact He. rewrite Hname.
    rewrite read_then_normalize. cbn [fst snd files trace]. split; [reflexivity|].
    unfold count. cbn. rewrite String.eqb_refl. reflexivity.
  - intros Hr. run. rewrite Hr. split; reflexivity.
  - intros Hr. run. rewrite Hr. split; reflexivity.
Qed.

(** C7: when the cache scan finds no latest cache and the API gives no
    data (a reply without [response], a failed connection, or a body
    that is not JSON), [load_data] raises: no dataset is returned, and no
    file is written. *)
Theorem load_data_no_source (w : World)
    (csv_filename csv_filepath airport_iata : string)
    (fs : list (string * text L)) :
  fst (latest_csv L csv_filename csv_filepath (start L fs)) = inr (None, None) ->
  empty_response (remote w) = true \/ remote w = ConnectionFailed \/ remote w = Reply None ->
  let r := load_data L w csv_filename csv_filepath airport_iata (start L fs) in
  fst r = inl (match remote w with
               | ConnectionFailed => RequestException
               | Reply None => JSONDecodeError
               | Reply (Some _) => ValueError
               end) /\
  file_writes L r = 0 /\
  files (snd r) = fs.
Proof.
  intros H Hno r. unfold r, file_writes.
  rewrite (load_data_steps w _ _ airport_iata fs _ H). cbn [fst snd date_is].
  destruct Hno as [He|[Hr|Hr]].
  - rewrite fetch_empty_response by exact He.
    unfold empty_response in He.
    destruct (remote w) as [|[j|]]; try discriminate.
    repeat split.
  - run. rewrite Hr. repeat split.
  - run. rewrite Hr. repeat split.
Qed.
End ProviderProperties.

(** ** The provider on the example worlds *)

Lemma load_data_todays_cache_witness :
  fst (app_load mem_libs (world day1 ConnectionFailed) stale_files)
  = cached_dataset mem_libs stale_files stale_name /\
  api_calls mem_libs (app_load mem_libs (world day1 ConnectionFailed) stale_files) = 0 /\
  file_writes mem_libs (app_load mem_libs (world day1 ConnectionFailed) stale_files) = 0.
Proof.
  pose proof (load_data_todays_cache mem_libs (world day1 ConnectionFailed)
                "lax_flights_*.csv" data_dir "LAX" stale_files stale_name) as H.
  cbv zeta in H. destruct H as (_ & H & _).
  destruct (H ltac:(vm_compute; reflexivity)) as (H1 & H2 & H3 & _).
  repeat split; assumption.
Defined.

Lemma load_data_stale_fetch_time_witness :
  fst (app_load mem_libs (world day2 (Reply (Some (JObj [("response", JNull)])))) stale_files)
  = cached_dataset mem_libs stale_files stale_name.
Proof.
  apply (load_data_stale_fetch_time mem_libs
           (world day2 (Reply (Some (JObj [("response", JNull)]))))
           "lax_flights_*.csv" data_dir "LAX" stale_files stale_name day1);
    vm_compute; reflexivity.
Defined.

Lemma load_data_stale_outcomes_witness :
  fst (app_load mem_libs (world day2 (Reply (Some (JObj [])))) stale_files)
  = cached_dataset mem_libs stale_files stale_name.
Proof.
  pose proof (load_data_stale_outcomes mem_libs (world day2 (Reply (Some (JObj []))))
                "lax_flights_*.csv" data_dir "LAX" stale_files
                (Some stale_name, Some day1)) as H.
  cbv zeta in H.
  destruct (H ltac:(vm_compute; reflexivity) ltac:(vm_compute; reflexivity)) as (H1 & _).
  apply (H1 ltac:(vm_compute; reflexivity) stale_name). reflexivity.
Defined.

Lemma load_data_no_source_witness :
  fst (app_load mem_libs (world day2 (Reply (Some (JObj [("response", JNull)])))) [])
  = inl ValueError.
Proof.
  apply (load_data_no_source mem_libs
           (world day2 (Reply (Some (JObj [("response", JNull)]))))
           "lax_flights_*.csv" data_dir "LAX" []).
  - vm_compute; reflexivity.
  - left. vm_compute; reflexivity.
Defined.

(** C1, as stated, fails: a stale cache exists, yet a failed connection and
    a body that is not JSON both reach the caller as exceptions. *)
Lemma load_data_network_error_raises :
  fst (latest_csv mem_libs "lax_flights_*.csv" data_dir (start mem_libs stale_files))
  = inr (Some stale_name, Some day1) /\
  date_eqb day1 day2 = false /\
  fst (app_load mem_libs (world day2 ConnectionFailed) stale_files) = inl RequestException /\
  fst (app_load mem_libs (world day2 (Reply None)) stale_files) = inl JSONDecodeError.
Proof. vm_compute. repeat split. Qed.

(** C6, as stated, fails: a process that reruns twice on one day while the
    connection fails issues two GETs that day, the singleton having
    nothing to keep. *)
Lemma singleton_two_failed_reruns :
  today (world day2 ConnectionFailed) = day2 /\
  gets (reruns mem_libs "lax_flights_*.csv" data_dir "LAX"
          [world day2 ConnectionFailed; world day2 ConnectionFailed]
          (boot mem_libs stale_files)) = 2 /\
  raised (reruns mem_libs "lax_flights_*.csv" data_dir "LAX"
            [world day2 ConnectionFailed; world day2 ConnectionFailed]
            (boot mem_libs stale_files)) = 2.
Proof. vm_compute. repeat split. Qed.

(* ===================================================================== *)
(** * Part V: the order of strings and of group keys                      *)
(* ===================================================================== *)

Lemma ascii_compare_refl (a : ascii) : Ascii.compare a a = Eq.
Proof. unfold Ascii.compare. apply N.compare_refl. Qed.

Lemma ascii_lt_trans (a b c : ascii) :
  Ascii.compare a b = Lt -> Ascii.compare b c = Lt -> Ascii.compare a c = Lt.
Proof.
  unfold Ascii.compare. rewrite !N.compare_lt_iff. apply N.lt_trans.
Qed.

Lemma string_compare_refl (s : string) : String.compare s s = Eq.
Proof.
  induction s as [|a s IH]; simpl; [reflexivity|].
  rewrite ascii_compare_refl. exact IH.
Qed.

Lemma string_lt_trans (a b c : string) :
  String.compare a b = Lt -> String.compare b c = Lt -> String.compare a c = Lt.
Proof.
  revert b c. induction a as [|x a IH]; intros [|y b] [|z c]; simpl; try discriminate; auto.
  destruct (Ascii.compare x y) eqn:Exy; try discriminate;
    destruct (Ascii.compare y z) eqn:Eyz; try discriminate; intros H1 H2.
  - apply Ascii.compare_eq_iff in Exy, Eyz. subst.
    rewrite ascii_compare_refl. eapply IH; eassumption.
  - apply Ascii.compare_eq_iff in Exy. subst. rewrite Eyz. reflexivity.
  - apply Ascii.compare_eq_iff in Eyz. subst. rewrite Exy. reflexivity.
  - rewrite (ascii_lt_trans x y z Exy Eyz). reflexivity.
Qed.

Lemma string_leb_lt_or_eq (a b : string) :
  String.leb a b = true <-> String.compare a b = Lt \/ a = b.
Proof.
  unfold String.leb. split.
  - destruct (String.compare a b) eqn:E; try discriminate; intros _; auto.
    right. now apply String.compare_eq_iff.
  - intros [H| ->]; [now rewrite H | now rewrite string_compare_refl].
Qed.

Lemma string_leb_trans (a b c : string) :
  String.leb a b = true -> String.leb b c = true -> String.leb a c = true.
Proof.
  rewrite !string_leb_lt_or_eq. intros [H1| ->] [H2| ->]; auto.
  left. eapply string_lt_trans; eassumption.
Qed.

Lemma string_leb_false (a b : string) : String.leb a b = false -> String.leb b a = true.
Proof.
  intros H. destruct (String.leb_total a b) as [H'|H']; congruence.
Qed.

Lemma string_ltb_of_leb (a b : string) :
  String.leb a b = true -> a <> b -> String.ltb a b = true.
Proof.
  rewrite string_leb_lt_or_eq. unfold String.ltb. intros [H|H] Hne; [now rewrite H | contradiction].
Qed.

(** Pairs of strings, first component first. *)
Lemma pair_leb_spec (p q : string * string) :
  pair_leb p q = true <->
  String.compare (fst p) (fst q) = Lt \/ (fst p = fst q /\ String.leb (snd p) (snd q) = true).
Proof.
  unfold pair_leb. destruct (String.compare (fst p) (fst q)) eqn:E.
  - apply String.compare_eq_iff in E. split; [auto|].
    intros [H|[_ H]]; [discriminate | exact H].
  - split; auto.
  - split; [discriminate|]. intros [H|[H _]]; [discriminate|].
    rewrite H, string_compare_refl in E. discriminate.
Qed.

Lemma pair_leb_trans (p q r : string * string) :
  pair_leb p q = true -> pair_leb q r = true -> pair_leb p r = true.
Proof.
  rewrite !pair_leb_spec. intros [H1|[E1 H1]] [H2|[E2 H2]].
  - left. eapply string_lt_trans; eassumption.
  - left. now rewrite <- E2.
  - left. now rewrite E1.
  - right. split; [congruence|]. eapply string_leb_trans; eassumption.
Qed.

Lemma pair_leb_false (p q : string * string) : pair_leb p q = false -> pair_leb q p = true.
Proof.
  unfold pair_leb. rewrite (String.compare_antisym (fst q) (fst p)).
  destruct (String.compare (fst p) (fst q)); simpl; try discriminate; auto.
  apply string_leb_false.
Qed.

Lemma pair_leb_antisym (p q : string * string) :
  pair_leb p q = true -> pair_leb q p = true -> p = q.
Proof.
  rewrite !pair_leb_spec. destruct p as [a b], q as [c d]. simpl.
  intros [H1|[E1 H1]] [H2|[E2 H2]]; subst;
    try (rewrite string_compare_refl in *; discriminate).
  - rewrite String.compare_antisym, H2 in H1. discriminate.
  - f_equal. now apply String.leb_antisym.
Qed.

Section SortedKeys.
Context {K : Type} (leb : K -> K -> bool).
Hypothesis leb_trans : forall a b c, leb a b = true -> leb b c = true -> leb a c = true.
Hypothesis leb_false : forall a b, leb a b = false -> leb b a = true.

Let le (a b : K) : Prop := leb a b = true.

Lemma insert_sorted_sorted (k : K) (l : list K) :
  StronglySorted le l -> StronglySorted le (insert_sorted leb k l).
Proof.
  intros H. induction H as [|x l Hl IH Hx]; simpl.
  - constructor; constructor.
  - destruct (leb k x) eqn:E.
    + constructor; [constructor; assumption|].
      constructor; [exact E|].
      eapply Forall_impl; [|exact Hx]. intros y Hy. eapply leb_trans; eassumption.
    + constructor; [exact IH|].
      apply Forall_forall. intros y Hy.
      apply (Permutation_in _ (insert_sorted_perm leb k l)) in Hy.
      destruct Hy as [<-|Hy]; [now apply leb_false|].
      rewrite Forall_forall in Hx. now apply Hx.
Qed.

Lemma sort_keys_sorted (l : list K) : StronglySorted le (sort_keys leb l).
Proof.
  induction l as [|x l IH]; simpl; [constructor|].
  apply insert_sorted_sorted. exact IH.
Qed.
End SortedKeys.

Lemma StronglySorted_strict {K} (le lt : K -> K -> Prop) (l : list K) :
  (forall a b, le a b -> a <> b -> lt a b) ->
  NoDup l -> StronglySorted le l -> StronglySorted lt l.
Proof.
  intros Hlt Hnd Hs. induction Hs as [|x l Hl IH Hx]; [constructor|].
  inversion Hnd as [|? ? Hnotin Hnd']; subst.
  constructor; [now apply IH|].
  apply Forall_forall. intros y Hy. rewrite Forall_forall in Hx.
  apply Hlt; [now apply Hx|]. intros ->. contradiction.
Qed.

(* ===================================================================== *)
(** * Part VI: further properties of the aggregator                       *)
(* ===================================================================== *)

Lemma filter_filter_and {A} (p q : A -> bool) (l : list A) :
  filter q (filter p l) = filter (fun x => p x && q x) l.
Proof.
  induction l as [|x l IH]; [reflexivity|].
  simpl. destruct (p x); simpl; [destruct (q x)|]; rewrite IH; reflexivity.
Qed.

Lemma filter_idem {A} (p : A -> bool) (l : list A) : filter p (filter p l) = filter p l.
Proof.
  rewrite filter_filter_and. apply filter_ext. intros x. apply andb_diag.
Qed.

Lemma filter_comm {A} (p q : A -> bool) (l : list A) :
  filter q (filter p l) = filter p (filter q l).
Proof.
  rewrite !filter_filter_and. apply filter_ext. intros x. apply andb_comm.
Qed.

(** X1: With a non-zero hour and a non-empty terminal, [filter_data] keeps, in
    their order, exactly the rows whose departure hour is the hour and
    whose terminal is the terminal; a row with no departure time or no
    terminal is never kept. *)
Theorem filter_data_selects (data : Dataset) (h : Z) (t : string) :
  h <> 0%Z -> t <> "" ->
  filter_data data (Some h) (Some t)
  = filter (fun r => eq_int (dt_hour r) h && eq_str (dep_terminal r) t) data /\
  (forall r, In r (filter_data data (Some h) (Some t)) ->
     has_time r = true /\ has_terminal r = true).
Proof.
  intros Hh Ht.
  assert (E : filter_data data (Some h) (Some t)
              = filter (fun r => eq_int (dt_hour r) h && eq_str (dep_terminal r) t) data).
  { unfold filter_data, truthy_int, truthy_str, int_value, str_value.
    apply Z.eqb_neq in Hh. apply String.eqb_neq in Ht. rewrite Hh, Ht. simpl negb. cbv iota.
    apply filter_filter_and. }
  split; [exact E|].
  intros r Hr. rewrite E in Hr. apply filter_In in Hr as [_ Hr].
  apply andb_prop in Hr as [H1 H2].
  unfold eq_int, dt_hour, eq_str, has_time, has_terminal in *.
  destruct (dep_time r), (dep_terminal r); try discriminate; auto.
Qed.

Lemma filter_data_selects_witness :
  filter_data sample (Some 11%Z) (Some "B")
  = filter (fun r => eq_int (dt_hour r) 11 && eq_str (dep_terminal r) "B") sample.
Proof.
  apply (filter_data_selects sample 11%Z "B"); discriminate.
Defined.

(** X2: Filtering is idempotent, and the hour test and the terminal test can
    be applied in two calls, in either order, with the same result as in
    one call. *)
Theorem filter_data_composes (data : Dataset) (h : option Z) (t : option string) :
  filter_data (filter_data data h t) h t = filter_data data h t /\
  filter_data (filter_data data h None) None t = filter_data data h t /\
  filter_data (filter_data data None t) h None = filter_data data h t.
Proof.
  unfold filter_data. cbn [truthy_int truthy_str].
  destruct (truthy_int h), (truthy_str t); repeat split;
    rewrite ?filter_filter_and; try reflexivity;
    apply filter_ext; intros r;
    repeat match goal with
           | |- context [eq_int ?a ?b] => destruct (eq_int a b)
           | |- context [eq_str ?a ?b] => destruct (eq_str a b)
           end; reflexivity.
Qed.

(** X3: An hour outside 0..23 matches no departure: the subset is empty,
    whatever the terminal. *)
Theorem filter_data_hour_out_of_range (data : Dataset) (h : Z) (t : option string) :
  (h < 0 \/ 23 < h)%Z -> filter_data data (Some h) t = [].
Proof.
  intros Hh.
  assert (E : filter (fun r => eq_int (dt_hour r) h) data = []).
  { induction data as [|r data IH]; [reflexivity|].
    simpl. rewrite IH. unfold eq_int, dt_hour.
    destruct (dep_time r) as [ts|]; [|reflexivity]. simpl.
    pose proof (hour_of_range ts).
    replace (hour_of ts =? h)%Z with false; [reflexivity|].
    symmetry. apply Z.eqb_neq. lia. }
  unfold filter_data, truthy_int, int_value.
  replace (h =? 0)%Z with false by (symmetry; apply Z.eqb_neq; lia).
  simpl negb. cbv iota. rewrite E. destruct (truthy_str t); reflexivity.
Qed.

Lemma filter_data_hour_out_of_range_witness :
  filter_data sample (Some 24%Z) None = [].
Proof.
  apply (filter_data_hour_out_of_range sample 24%Z None). right. reflexivity.
Defined.

(** ** The histogram *)

Lemma calculate_data_by_hour_rows
    (data : Dataset) (departure_hour : option Z) (terminal_selected : option string) :
  rows (calculate_data_by_hour data departure_hour terminal_selected)
  = map (fun m => (m, count (fun r => eq_int (dt_minute r) (Z.of_nat m))
                            (filter_data data departure_hour terminal_selected)))
        (seq 0 60).
Proof.
  unfold calculate_data_by_hour, np_histogram. cbn [rows].
  rewrite combine_seq_map. apply map_ext_in. intros m Hm.
  apply in_seq in Hm. f_equal. rewrite count_map.
  apply count_ext. intros r _. apply in_bin_minute. lia.
Qed.

Lemma count_all {A} (p : A -> bool) (l : list A) :
  (forall x, In x l -> p x = true) -> count p l = List.length l.
Proof.
  intros H. induction l as [|x l IH]; [reflexivity|].
  rewrite count_cons, IH by (intros y Hy; apply H; now right).
  rewrite (H x) by now left. reflexivity.
Qed.

Lemma count_le_length {A} (p : A -> bool) (l : list A) : count p l <= List.length l.
Proof. unfold count. apply filter_length_le. Qed.

Lemma count_filter_le {A} (p q : A -> bool) (l : list A) :
  count p (filter q l) <= count p l.
Proof.
  induction l as [|x l IH]; [reflexivity|].
  simpl. destruct (q x); rewrite !count_cons; [|destruct (p x)]; lia.
Qed.

Lemma filter_data_hour_has_time (data : Dataset) (h : Z) (t : option string) (r : FlightRecord) :
  h <> 0%Z -> In r (filter_data data (Some h) t) -> has_time r = true.
Proof.
  intros Hh. unfold filter_data, truthy_int, int_value.
  apply Z.eqb_neq in Hh. rewrite Hh. simpl negb. cbv iota.
  intros Hr.
  assert (Hr' : In r (filter (fun r => eq_int (dt_hour r) h) data)).
  { destruct (truthy_str t); [apply filter_In in Hr as [Hr _]|]; exact Hr. }
  apply filter_In in Hr' as [_ Hr'].
  unfold eq_int, dt_hour, has_time in *. destruct (dep_time r); [reflexivity | discriminate].
Qed.

(** X4: With a non-zero hour every kept row has a departure time, so the 60
    counts add up to the number of rows of the subset: no row is lost by
    the histogram. *)
Theorem histogram_counts_every_row (data : Dataset) (h : Z) (t : option string) :
  h <> 0%Z ->
  list_sum (map snd (rows (calculate_data_by_hour data (Some h) t)))
  = List.length (filter_data data (Some h) t).
Proof.
  intros Hh. rewrite calculate_data_by_hour_total. apply count_all.
  intros r. now apply filter_data_hour_has_time.
Qed.

Lemma histogram_counts_every_row_witness :
  list_sum (map snd (rows (calculate_data_by_hour sample (Some 5%Z) None)))
  = List.length (filter_data sample (Some 5%Z) None).
Proof.
  apply (histogram_counts_every_row sample 5%Z None). discriminate.
Defined.

(** X5: No bucket exceeds the size of the subset, and narrowing the subset by a
    terminal never raises a bucket: minute by minute, the histogram for a
    terminal lies under the histogram for all terminals. *)
Theorem histogram_terminal_below_all
    (data : Dataset) (departure_hour : option Z) (terminal_selected : option string) :
  (forall m c, In (m, c) (rows (calculate_data_by_hour data departure_hour terminal_selected)) ->
     c <= List.length (filter_data data departure_hour terminal_selected)) /\
  Forall2 (fun a b => fst a = fst b /\ snd a <= snd b)
          (rows (calculate_data_by_hour data departure_hour terminal_selected))
          (rows (calculate_data_by_hour data departure_hour None)).
Proof.
  rewrite !calculate_data_by_hour_rows. split.
  - intros m c Hin. apply in_map_iff in Hin as (m' & E & _).
    injection E as _ <-. apply count_le_length.
  - generalize (seq 0 60). intros l. induction l as [|m l IH]; simpl; constructor; auto.
    cbn [fst snd]. split; [reflexivity|].
    unfold filter_data. cbn [truthy_str]. destruct (truthy_str terminal_selected).
    + apply count_filter_le.
    + reflexivity.
Qed.

(** ** The terminal summary *)

Lemma terminal_summary_keys (data : Dataset) (h : option Z) :
  map fst (rows (group_data_by_terminal data h))
  = terminal_groups (filter_data data h None).
Proof.
  unfold group_data_by_terminal. cbn [rows]. rewrite map_map. cbn [fst]. apply map_id.
Qed.

(** X6: The rows of the terminal summary come in strictly ascending order of
    terminal label, whatever the order of the records. *)
Theorem terminal_summary_sorted (data : Dataset) (departure_hour : option Z) :
  StronglySorted key_lt (map fst (rows (group_data_by_terminal data departure_hour))).
Proof.
  rewrite terminal_summary_keys.
  apply (StronglySorted_strict (fun a b => String.leb a b = true)).
  - intros a b. apply string_ltb_of_leb.
  - apply terminal_groups_NoDup.
  - apply sort_keys_sorted; [apply string_leb_trans | apply string_leb_false].
Qed.

Lemma nunique_le_length (s : list (option string)) : nunique s <= List.length s.
Proof.
  unfold nunique.
  transitivity (List.length (dropna s)).
  - apply NoDup_incl_length; [apply NoDup_nodup|]. intros x. apply nodup_In.
  - induction s as [|[x|] s IH]; simpl; lia.
Qed.

Lemma nunique_zero (s : list (option string)) :
  nunique s = 0 <-> forall x, In x s -> x = None.
Proof.
  unfold nunique. split.
  - intros H [f|] Hx; [|reflexivity].
    apply In_dropna in Hx. apply (nodup_In string_dec) in Hx.
    destruct (nodup string_dec (dropna s)); [contradiction | discriminate].
  - intros H. destruct (nodup string_dec (dropna s)) as [|f l] eqn:E; [reflexivity|].
    assert (Hf : In f (nodup string_dec (dropna s))) by (rewrite E; now left).
    apply nodup_In, In_dropna, H in Hf. discriminate.
Qed.

(** Each record belongs to at most one group. *)
Lemma one_group_per_record (keys : list string) (r : FlightRecord) :
  NoDup keys ->
  list_sum (map (fun t => if at_terminal t r then 1 else 0) keys) <= 1.
Proof.
  intros Hnd. induction Hnd as [|k keys Hk Hnd IH]; simpl; [lia|].
  destruct (at_terminal k r) eqn:E; [|exact IH].
  assert (Hz : list_sum (map (fun t => if at_terminal t r then 1 else 0) keys) = 0).
  { transitivity (list_sum (map (fun _ : string => 0) keys)); [|apply list_sum_map_zero].
    f_equal. apply map_ext_in.
    intros t Ht. destruct (at_terminal t r) eqn:E'; [|reflexivity].
    apply at_terminal_true in E, E'. assert (k = t) by congruence. subst. contradiction. }
  rewrite Hz. lia.
Qed.

Lemma group_sizes_le (keys : list string) (sub : Dataset) :
  NoDup keys ->
  list_sum (map (fun t => count (at_terminal t) sub) keys) <= List.length sub.
Proof.
  intros Hnd. induction sub as [|r sub IH].
  - unfold count. simpl. rewrite list_sum_map_zero. lia.
  - pose proof (one_group_per_record keys r Hnd) as H1.
    replace (map (fun t => count (at_terminal t) (r :: sub)) keys)
      with (map (fun t => (if at_terminal t r then 1 else 0) + count (at_terminal t) sub) keys)
      by (apply map_ext; intros t; now rewrite count_cons).
    rewrite list_sum_map_add. simpl List.length. lia.
Qed.

(** X7: A row's [count_flights] is at most the number of rows of the subset at
    that terminal, and is zero exactly when none of them carries a flight
    identifier; the counts of all rows together do not exceed the size of
    the subset. *)
Theorem terminal_summary_bounded (data : Dataset) (departure_hour : option Z) :
  let sub := filter_data data departure_hour None in
  let tbl := group_data_by_terminal data departure_hour in
  (forall t c, In (t, c) (rows tbl) ->
     c <= count (at_terminal t) sub /\
     (c = 0 <-> forall r, In r sub -> dep_terminal r = Some t -> flight_iata r = None)) /\
  list_sum (map snd (rows tbl)) <= List.length sub.
Proof.
  intros sub tbl. split.
  - intros t c Hin. unfold tbl, group_data_by_terminal in Hin. fold sub in Hin.
    cbn [rows] in Hin. apply in_map_iff in Hin as (t' & E & _). injection E as -> <-.
    split.
    + etransitivity; [apply nunique_le_length|]. rewrite length_map. reflexivity.
    + rewrite nunique_zero. split.
      * intros H r Hr Ht. apply H. apply in_map. apply filter_In.
        split; [exact Hr | now apply at_terminal_true].
      * intros H x Hx. apply in_map_iff in Hx as (r & <- & Hr).
        apply filter_In in Hr as [Hr Ht]. apply H; [exact Hr | now apply at_terminal_true].
  - unfold tbl, group_data_by_terminal. fold sub. cbn [rows]. rewrite map_map. cbn [snd].
    etransitivity; [|apply (group_sizes_le (terminal_groups sub) sub), terminal_groups_NoDup].
    clear. induction (terminal_groups sub) as [|t l IH]; simpl; [lia|].
    pose proof (nunique_le_length (map flight_iata (filter (at_terminal t) sub))) as H.
    rewrite length_map in H. unfold count at 1. lia.
Qed.

(** ** The airline summary *)

Lemma at_terminal_airline_true (k : string * string) (r : FlightRecord) :
  at_terminal_airline k r = true <->
  dep_terminal r = Some (fst k) /\ airline_iata r = Some (snd k).
Proof.
  unfold at_terminal_airline, terminal_airline_key.
  destruct (dep_terminal r) as [t|], (airline_iata r) as [a|]; cbn [fst snd];
    try (split; [discriminate | intros [? ?]; discriminate]).
  rewrite andb_true_iff, !String.eqb_eq. split; intros [H1 H2]; split; congruence.
Qed.

Lemma airline_summary_keys (data : Dataset) (h : option Z) :
  map row_key (rows (group_data_by_airline data h))
  = terminal_airline_groups (filter_data data h None).
Proof.
  unfold group_data_by_airline. cbn [rows]. rewrite !map_map.
  unfold row_key. cbn [row_terminal row_airline fst snd].
  rewrite <- (map_id (terminal_airline_groups _)) at 2.
  apply map_ext. intros [t a]. reflexivity.
Qed.

Lemma terminal_airline_groups_NoDup (sub : Dataset) : NoDup (terminal_airline_groups sub).
Proof. apply sort_keys_NoDup, NoDup_nodup. Qed.

Lemma nunique_at_terminal_airline (sub : Dataset) (k : string * string) :
  exists ids : list string,
    NoDup ids /\
    (forall f, In f ids <->
               exists r, In r sub /\ dep_terminal r = Some (fst k) /\
                         airline_iata r = Some (snd k) /\ flight_iata r = Some f) /\
    nunique (map flight_iata (filter (at_terminal_airline k) sub)) = List.length ids.
Proof.
  exists (nodup string_dec (dropna (map flight_iata (filter (at_terminal_airline k) sub)))).
  split; [apply NoDup_nodup|]. split; [|reflexivity].
  intros f. rewrite nodup_In, In_dropna_map.
  split; intros (r & H1 & H2).
  - apply filter_In in H1 as [H1 H3]. apply at_terminal_airline_true in H3 as [H3 H4].
    exists r. auto.
  - destruct H2 as (H2 & H3 & H4). exists r. split; [|exact H4].
    apply filter_In. split; [exact H1 | now apply at_terminal_airline_true].
Qed.

(** X8: The airline summary has one row for each pair (terminal, airline) that
    occurs in the subset cut by the hour with neither part missing, in
    strictly ascending order of the pair; every row carries the label LAX,
    and its [count_flights] is the number of distinct flight identifiers
    among the subset's rows of that terminal and airline. *)
Theorem airline_summary_rows (data : Dataset) (departure_hour : option Z) :
  let sub := filter_data data departure_hour None in
  let tbl := group_data_by_airline data departure_hour in
  StronglySorted pair_key_lt (map row_key (rows tbl)) /\
  NoDup (map row_key (rows tbl)) /\
  (forall t a, In (t, a) (map row_key (rows tbl)) <->
     exists r, In r sub /\ dep_terminal r = Some t /\ airline_iata r = Some a) /\
  (forall row, In row (rows tbl) ->
     row_airport row = "LAX" /\
     exists ids : list string,
       NoDup ids /\
       (forall f, In f ids <->
          exists r, In r sub /\ dep_terminal r = Some (row_terminal row) /\
                    airline_iata r = Some (row_airline row) /\ flight_iata r = Some f) /\
       row_count row = List.length ids).
Proof.
  intros sub tbl. unfold tbl. rewrite airline_summary_keys. fold sub.
  split; [|split; [|split]].
  - apply (StronglySorted_strict (fun p q => pair_leb p q = true)).
    + intros p q Hle Hne. split; assumption.
    + apply terminal_airline_groups_NoDup.
    + apply sort_keys_sorted; [apply pair_leb_trans | apply pair_leb_false].
  - apply terminal_airline_groups_NoDup.
  - intros t a. apply (terminal_airline_groups_In sub (t, a)).
  - intros row Hin. unfold group_data_by_airline in Hin. fold sub in Hin.
    cbn [rows] in Hin. rewrite map_map in Hin.
    apply in_map_iff in Hin as (k & <- & _).
    cbn [row_airport row_terminal row_airline row_count fst snd].
    split; [reflexivity|]. apply nunique_at_terminal_airline.
Qed.

Lemma filter_map_swap {A B} (p : B -> bool) (f : A -> B) (l : list A) :
  filter p (map f l) = map f (filter (fun x => p (f x)) l).
Proof.
  induction l as [|x l IH]; [reflexivity|].
  simpl. destruct (p (f x)); simpl; rewrite IH; reflexivity.
Qed.

(** X9: The two summaries agree: every terminal of the airline summary is a
    terminal of the terminal summary, and a terminal's [count_flights] is
    at most the sum of the counts of its airline rows plus the number of
    its rows that have no airline (those rows are in no airline group). *)
Theorem airline_summary_covers_terminal (data : Dataset) (departure_hour : option Z) :
  let sub := filter_data data departure_hour None in
  let by_terminal := rows (group_data_by_terminal data departure_hour) in
  let by_airline := rows (group_data_by_airline data departure_hour) in
  (forall t, In t (map row_terminal by_airline) -> In t (map fst by_terminal)) /\
  (forall t c, In (t, c) by_terminal ->
     c <= list_sum (map row_count
                        (filter (fun row => String.eqb (row_terminal row) t) by_airline))
          + count (fun r => at_terminal t r && negb (has_airline r)) sub).
Proof.
  intros sub by_terminal by_airline. split.
  - intros t Ht. unfold by_terminal. rewrite terminal_summary_keys. fold sub.
    apply in_map_iff in Ht as (row & <- & Hrow).
    assert (Hk : In (row_key row) (map row_key by_airline)) by now apply in_map.
    unfold by_airline in Hk. rewrite airline_summary_keys in Hk. fold sub in Hk.
    apply terminal_airline_groups_In in Hk as (r & Hr & Ht & _).
    apply terminal_groups_In. exists r. auto.
  - intros t c Hin. unfold by_terminal, group_data_by_terminal in Hin. fold sub in Hin.
    cbn [rows] in Hin. apply in_map_iff in Hin as (t' & E & _). injection E as -> <-.
    pose (ids := fun k => nodup string_dec
                            (dropna (map flight_iata (filter (at_terminal_airline k) sub)))).
    pose (keys := filter (fun k : string * string => String.eqb (fst k) t)
                         (terminal_airline_groups sub)).
    pose (lost := dropna (map flight_iata
                            (filter (fun r => at_terminal t r && negb (has_airline r)) sub))).
    assert (Hsum : list_sum (map row_count
                     (filter (fun row => String.eqb (row_terminal row) t) by_airline))
                   = List.length (flat_map ids keys)).
    { unfold by_airline, group_data_by_airline. fold sub. cbn [rows].
      rewrite map_map, filter_map_swap, map_map.
      cbn [row_terminal row_count fst snd]. unfold nunique.
      rewrite (list_sum_lengths ids). reflexivity. }
    rewrite Hsum. unfold nunique.
    transitivity (List.length (flat_map ids keys ++ lost)).
    + apply NoDup_incl_length; [apply NoDup_nodup|].
      intros f Hf. apply nodup_In, In_dropna_map in Hf as (r & Hr & Hf).
      apply filter_In in Hr as [Hr Ht]. apply in_or_app.
      destruct (airline_iata r) as [a|] eqn:Ea.
      * left. apply in_flat_map. exists (t, a). split.
        -- unfold keys. apply filter_In. split; [|apply String.eqb_refl].
           apply terminal_airline_groups_In. exists r. cbn [fst snd].
           apply at_terminal_true in Ht. auto.
        -- unfold ids. apply nodup_In, In_dropna_map. exists r. split; [|exact Hf].
           apply filter_In. split; [exact Hr|]. apply at_terminal_airline_true.
           cbn [fst snd]. apply at_terminal_true in Ht. auto.
      * right. unfold lost. apply In_dropna_map. exists r. split; [|exact Hf].
        apply filter_In. split; [exact Hr|]. rewrite Ht. unfold has_airline. now rewrite Ea.
    + rewrite length_app. apply Nat.add_le_mono_l.
      unfold lost, count.
      generalize (filter (fun r => at_terminal t r && negb (has_airline r)) sub). intros l.
      induction l as [|r l IH]; simpl; [lia|].
      destruct (flight_iata r); simpl; lia.
Qed.


(* ===================================================================== *)
(** * Part VII: dates and cache file names                                *)
(* ===================================================================== *)

Lemma digit_char_spec (x : Z) :
  is_digit (digit_char x) = true /\ digit_val (digit_char x) = (x mod 10)%Z.
Proof.
  unfold digit_char.
  assert (H : (0 <= x mod 10 < 10)%Z) by (apply Z.mod_pos_bound; lia).
  set (k := (x mod 10)%Z) in *. clearbody k.
  assert (E : (k = 0 \/ k = 1 \/ k = 2 \/ k = 3 \/ k = 4 \/ k = 5 \/ k = 6
               \/ k = 7 \/ k = 8 \/ k = 9)%Z) by lia.
  repeat destruct E as [E|E]; subst k; split; reflexivity.
Qed.

Lemma in_range_bounds (lo hi : Z) (c : ascii) :
  in_range lo hi c = true -> (lo <= digit_val c <= hi)%Z.
Proof.
  unfold in_range. rewrite !andb_true_iff, !Z.leb_le. tauto.
Qed.

Lemma is_digit_bounds (c : ascii) : is_digit c = true -> (0 <= digit_val c <= 9)%Z.
Proof.
  unfold is_digit, digit_val. rewrite andb_true_iff, !Nat.leb_le. lia.
Qed.

Lemma days_in_month_bounds (y m : Z) : (28 <= days_in_month y m <= 31)%Z.
Proof.
  unfold days_in_month.
  destruct (m =? 2)%Z; [destruct (is_leap y); lia|].
  destruct ((m =? 4) || (m =? 6) || (m =? 9) || (m =? 11))%Z; lia.
Qed.

(** Month and day, written with two digits each, are read back. *)
Lemma month_day_read_back (m d : Z) :
  (1 <= m <= 12)%Z -> (1 <= d <= 31)%Z ->
  first_month_day
    (month_alternatives
       [digit_char (m / 10); digit_char m; digit_char (d / 10); digit_char d])
  = Some (m, d, []).
Proof.
  intros Hm Hd.
  assert (Em :
    (m = 1 \/ m = 2 \/ m = 3 \/ m = 4 \/ m = 5 \/ m = 6 \/ m = 7 \/ m = 8 \/
     m = 9 \/ m = 10 \/ m = 11 \/ m = 12)%Z) by lia.
  assert (Ed :
    (d = 1 \/ d = 2 \/ d = 3 \/ d = 4 \/ d = 5 \/ d = 6 \/ d = 7 \/ d = 8 \/
     d = 9 \/ d = 10 \/ d = 11 \/ d = 12 \/ d = 13 \/ d = 14 \/ d = 15 \/
     d = 16 \/ d = 17 \/ d = 18 \/ d = 19 \/ d = 20 \/ d = 21 \/ d = 22 \/
     d = 23 \/ d = 24 \/ d = 25 \/ d = 26 \/ d = 27 \/ d = 28 \/ d = 29 \/
     d = 30 \/ d = 31)%Z) by lia.
  clear Hm Hd.
  repeat destruct Em as [Em|Em]; subst m;
    repeat destruct Ed as [Ed|Ed]; subst d; reflexivity.
Qed.

Lemma year_digits (y : Z) :
  (0 <= y <= 9999)%Z ->
  (1000 * ((y / 1000) mod 10) + 100 * ((y / 100) mod 10)
   + 10 * ((y / 10) mod 10) + y mod 10 = y)%Z.
Proof.
  intros H. Z.div_mod_to_equations. lia.
Qed.

(** A date written with four, two and two digits is read back. *)
Lemma strftime_read_back (d : date) :
  valid_date d -> strptime_Ymd (strftime_Ymd d) = Some d.
Proof.
  intros (Hy & Hm & Hd).
  pose proof (days_in_month_bounds (year d) (month d)) as Hdim.
  unfold strptime_Ymd, strftime_Ymd. rewrite list_ascii_of_string_of_list_ascii.
  destruct (digit_char_spec (year d / 1000)) as [D1 V1].
  destruct (digit_char_spec (year d / 100)) as [D2 V2].
  destruct (digit_char_spec (year d / 10)) as [D3 V3].
  destruct (digit_char_spec (year d)) as [D4 V4].
  rewrite D1, D2, D3, D4. cbn [andb].
  rewrite month_day_read_back by lia.
  rewrite V1, V2, V3, V4, year_digits by lia.
  replace (1 <=? year d)%Z with true by (symmetry; apply Z.leb_le; lia).
  replace (day d <=? days_in_month (year d) (month d))%Z with true
    by (symmetry; apply Z.leb_le; lia).
  destruct d; reflexivity.
Qed.


(** ** What [strptime] accepts *)

Lemma month_alternatives_bounds (l rest : list ascii) (m : Z) :
  In (m, rest) (month_alternatives l) -> (1 <= m <= 12)%Z.
Proof.
  unfold month_alternatives. intros H.
  apply in_app_or in H as [H|H].
  - destruct l as [|c1 [|c2 l']]; try contradiction.
    apply in_app_or in H as [H|H].
    + destruct (Ascii.eqb c1 "1" && in_range 0 2 c2) eqn:E; [|contradiction].
      destruct H as [H|[]]. apply (f_equal fst) in H; cbn [fst] in H; rewrite <- H.
      apply andb_prop in E as [_ E]. apply in_range_bounds in E. lia.
    + destruct (Ascii.eqb c1 "0" && in_range 1 9 c2) eqn:E; [|contradiction].
      destruct H as [H|[]]. apply (f_equal fst) in H; cbn [fst] in H; rewrite <- H.
      apply andb_prop in E as [_ E]. apply in_range_bounds in E. lia.
  - destruct l as [|c1 l']; try contradiction.
    destruct (in_range 1 9 c1) eqn:E; [|contradiction].
    destruct H as [H|[]]. apply (f_equal fst) in H; cbn [fst] in H; rewrite <- H.
    apply in_range_bounds in E. lia.
Qed.

Lemma day_alternatives_positive (l rest : list ascii) (d : Z) :
  In (d, rest) (day_alternatives l) -> (1 <= d)%Z.
Proof.
  unfold day_alternatives. intros H.
  repeat (apply in_app_or in H as [H|H]).
  - destruct l as [|c1 [|c2 l']]; try contradiction.
    repeat (apply in_app_or in H as [H|H]).
    + destruct (Ascii.eqb c1 "3" && in_range 0 1 c2) eqn:E; [|contradiction].
      destruct H as [H|[]]. apply (f_equal fst) in H; cbn [fst] in H; rewrite <- H.
      apply andb_prop in E as [_ E]. apply in_range_bounds in E. lia.
    + destruct (in_range 1 2 c1 && is_digit c2) eqn:E; [|contradiction].
      destruct H as [H|[]]. apply (f_equal fst) in H; cbn [fst] in H; rewrite <- H.
      apply andb_prop in E as [E1 E2].
      apply in_range_bounds in E1. apply is_digit_bounds in E2. lia.
    + destruct (Ascii.eqb c1 "0" && in_range 1 9 c2) eqn:E; [|contradiction].
      destruct H as [H|[]]. apply (f_equal fst) in H; cbn [fst] in H; rewrite <- H.
      apply andb_prop in E as [_ E]. apply in_range_bounds in E. lia.
  - destruct l as [|c1 l']; try contradiction.
    destruct (in_range 1 9 c1) eqn:E; [|contradiction].
    destruct H as [H|[]]. apply (f_equal fst) in H; cbn [fst] in H; rewrite <- H.
    apply in_range_bounds in E. lia.
  - destruct l as [|c1 [|c2 l']]; try contradiction.
    destruct (Ascii.eqb c1 " " && in_range 1 9 c2) eqn:E; [|contradiction].
    destruct H as [H|[]]. apply (f_equal fst) in H; cbn [fst] in H; rewrite <- H.
    apply andb_prop in E as [_ E]. apply in_range_bounds in E. lia.
Qed.

Lemma first_month_day_bounds (ms : list (Z * list ascii)) (m d : Z) (rest : list ascii) :
  (forall m' r', In (m', r') ms -> (1 <= m' <= 12)%Z) ->
  first_month_day ms = Some (m, d, rest) -> (1 <= m <= 12 /\ 1 <= d)%Z.
Proof.
  induction ms as [|[m0 r0] ms IH]; intros Hb H; simpl in H; [discriminate|].
  destruct (day_alternatives r0) as [|[d0 r1] ds] eqn:E.
  - apply IH; [|exact H]. intros m' r' Hin. apply (Hb m' r'). now right.
  - injection H as <- <- <-. split.
    + apply (Hb m0 r0). now left.
    + apply (day_alternatives_positive r0 r1). rewrite E. now left.
Qed.

(** A successful parse is a date of the calendar. *)
Lemma strptime_calendar (s : string) (d : date) :
  strptime_Ymd s = Some d -> valid_date d.
Proof.
  unfold strptime_Ymd.
  destruct (list_ascii_of_string s) as [|y1 [|y2 [|y3 [|y4 rest]]]]; try discriminate.
  destruct (is_digit y1 && is_digit y2 && is_digit y3 && is_digit y4) eqn:E;
    [|discriminate].
  apply andb_prop in E as [E E4]. apply andb_prop in E as [E E3].
  apply andb_prop in E as [E1 E2].
  apply is_digit_bounds in E1, E2, E3, E4.
  destruct (first_month_day (month_alternatives rest)) as [[[m dd] [|c l]]|] eqn:F;
    try discriminate.
  apply first_month_day_bounds in F;
    [|intros m' r'; apply month_alternatives_bounds].
  match goal with
  | |- (if ?c then _ else _) = _ -> _ => destruct c eqn:C; [|discriminate]
  end.
  apply andb_prop in C as [C1 C2]. apply Z.leb_le in C1, C2.
  intros H. apply (f_equal (fun o => match o with Some x => x | None => d end)) in H.
  rewrite <- H. unfold valid_date. cbn [year month day]. lia.
Qed.



(** ** The name of a cache file *)

Lemma substring_skip (x y : string) (m : nat) :
  substring (String.length x) m (x ++ y) = substring 0 m y.
Proof. induction x as [|c x IH]; simpl; [reflexivity | exact IH]. Qed.

Lemma substring_prefix (a b : string) :
  substring 0 (String.length a) (a ++ b) = a.
Proof.
  induction a as [|c a IH]; simpl.
  - destruct b; reflexivity.
  - now rewrite IH.
Qed.

Lemma string_length_append (a b : string) :
  String.length (a ++ b) = String.length a + String.length b.
Proof. induction a as [|c a IH]; simpl; [reflexivity | now rewrite IH]. Qed.

Lemma string_append_assoc (a b c : string) : ((a ++ b) ++ c = a ++ (b ++ c))%string.
Proof. induction a as [|x a IH]; simpl; [reflexivity | now rewrite IH]. Qed.

(** [s[-12:-4]] of a name that ends in eight characters and a four
    character extension is the eight characters. *)
Lemma slice_stem (x stem ext : string) :
  String.length stem = 8 -> String.length ext = 4 ->
  slice_from_end 12 4 (x ++ stem ++ ext) = stem.
Proof.
  intros Hs He. unfold slice_from_end.
  rewrite !string_length_append, Hs, He.
  replace (String.length x + (8 + 4) - 12) with (String.length x) by lia.
  replace (String.length x + (8 + 4) - 4 - String.length x) with 8 by lia.
  rewrite substring_skip, <- Hs. apply substring_prefix.
Qed.

Lemma os_path_join_suffix (a b : string) : exists p, os_path_join a b = (p ++ b)%string.
Proof.
  unfold os_path_join.
  assert (H : exists p, (if String.eqb a "" || ends_with_slash a
                         then a ++ b else a ++ "/" ++ b)%string = (p ++ b)%string).
  { destruct (String.eqb a "" || ends_with_slash a).
    - now exists a.
    - exists (a ++ "/")%string. now rewrite string_append_assoc. }
  destruct b as [|c b]; [exact H|].
  destruct c as [[] [] [] [] [] [] [] []]; try exact H.
  now exists ""%string.
Qed.

Lemma cache_path_read_back (csv_filepath airport_iata : string) (d : date) :
  valid_date d ->
  strptime_Ymd (slice_from_end 12 4 (cache_path csv_filepath airport_iata d)) = Some d.
Proof.
  intros Hd. unfold cache_path.
  destruct (os_path_join_suffix csv_filepath
              (lower airport_iata ++ "_flights_" ++ strftime_Ymd d ++ ".csv"))
    as [p ->].
  rewrite <- !string_append_assoc.
  rewrite (string_append_assoc _ (strftime_Ymd d) ".csv").
  rewrite slice_stem by reflexivity.
  now apply strftime_read_back.
Qed.

(** X12: The file [load_data] writes for a day of a year from 1000 on is
    recognised as that day's cache: the eight characters before the
    extension of its path parse back to the day, whatever the directory
    and the airport code.  (Below year 1000 the text of the year depends
    on the C library, and is outside the statement.) *)
Theorem cache_path_dated (csv_filepath airport_iata : string) (d : date) :
  valid_date d -> (1000 <= year d)%Z ->
  strptime_Ymd (slice_from_end 12 4 (cache_path csv_filepath airport_iata d)) = Some d.
Proof. intros Hd _. now apply cache_path_read_back. Qed.

Lemma cache_path_dated_witness :
  strptime_Ymd (slice_from_end 12 4 (cache_path data_dir "LAX" day2)) = Some day2.
Proof.
  apply (cache_path_dated data_dir "LAX" day2); [unfold valid_date|]; cbn; lia.
Defined.


(* ===================================================================== *)
(** * Part VIII: further properties of the dataset provider               *)
(* ===================================================================== *)

(** ** The cache scan *)

Lemma str_max_bounds (a b : string) :
  String.leb a (str_max a b) = true /\ String.leb b (str_max a b) = true /\
  (str_max a b = a \/ str_max a b = b).
Proof.
  unfold str_max, String.ltb, String.leb.
  destruct (String.compare a b) eqn:E.
  - rewrite string_compare_refl. apply String.compare_eq_iff in E. subst.
    rewrite string_compare_refl. auto.
  - rewrite E, string_compare_refl. auto.
  - rewrite string_compare_refl, String.compare_antisym, E. auto.
Qed.

Lemma fold_str_max (rest : list string) (x : string) :
  let m := fold_left str_max rest x in
  (m = x \/ In m rest) /\ String.leb x m = true /\
  (forall n, In n rest -> String.leb n m = true).
Proof.
  revert x. induction rest as [|y rest IH]; intros x; simpl.
  - split; [auto|]. split; [|contradiction].
    unfold String.leb. now rewrite string_compare_refl.
  - destruct (IH (str_max x y)) as (H1 & H2 & H3).
    destruct (str_max_bounds x y) as (Bx & By & Bm).
    split; [|split].
    + destruct H1 as [H1|H1]; [|auto]. rewrite H1. destruct Bm as [->| ->]; auto.
    + eapply string_leb_trans; eassumption.
    + intros n [<-|Hn]; [|now apply H3]. eapply string_leb_trans; eassumption.
Qed.

(** X13: [max(names)] fails exactly on the empty list; otherwise it returns one
    of the names, and no name is greater in code point order. *)
Theorem py_max_greatest (names : list string) :
  (py_max names = None <-> names = []) /\
  (forall m, py_max names = Some m ->
     In m names /\ forall n, In n names -> String.leb n m = true).
Proof.
  split.
  - destruct names; simpl; split; intros H; try reflexivity; discriminate.
  - intros m H. destruct names as [|x rest]; [discriminate|].
    simpl in H. injection H as <-.
    destruct (fold_str_max rest x) as (H1 & H2 & H3). split.
    + destruct H1 as [->|H1]; [now left | now right].
    + intros n [<-|Hn]; [exact H2 | now apply H3].
Qed.

Section ProviderRuns.
Variable L : Libs.

Ltac run :=
  unfold load_data, fetch, normalize, pd_read_csv, write_csv, requests_get,
    result_json, json_get, or_raise, lift, emit, bind, ret, raise in *;
  cbn [fst snd files trace] in *.

Lemma latest_csv_value (csv_filename csv_filepath : string)
    (fs : list (string * text L)) :
  let names := glob_glob L (map fst fs) (os_path_join csv_filepath csv_filename) in
  exists latest,
    fst (latest_csv L csv_filename csv_filepath (start L fs)) = inr latest /\
    match py_max names with
    | None => latest = (None, None)
    | Some name =>
        match strptime_Ymd (slice_from_end 12 4 name) with
        | Some d => latest = (Some name, Some d) /\ valid_date d
        | None => latest = (None, None)
        end
    end.
Proof.
  intros names. unfold latest_csv, try_except, glob, start. run. fold names.
  destruct (py_max names) as [name|]; [|eexists; split; reflexivity].
  destruct (strptime_Ymd (slice_from_end 12 4 name)) as [d|] eqn:E.
  - eexists. split; [reflexivity|]. split; [reflexivity|].
    eapply strptime_calendar. eassumption.
  - eexists. split; reflexivity.
Qed.

(** X14: The scan never raises.  It reports the greatest matching name together
    with the date read from it, a date of the calendar; it reports nothing
    when no name matches, and also when the greatest name carries no such
    date, whatever the other names are. *)
Theorem latest_csv_reports (csv_filename csv_filepath : string)
    (fs : list (string * text L)) :
  let names := glob_glob L (map fst fs) (os_path_join csv_filepath csv_filename) in
  exists latest,
    fst (latest_csv L csv_filename csv_filepath (start L fs)) = inr latest /\
    match py_max names with
    | None => latest = (None, None)
    | Some name =>
        match strptime_Ymd (slice_from_end 12 4 name) with
        | Some d => latest = (Some name, Some d) /\ valid_date d
        | None => latest = (None, None)
        end
    end.
Proof. apply latest_csv_value. Qed.

(** ** Runs that reach the API *)

Lemma response_of_reply (w : World) (resp : json) :
  response_of (remote w) = Some resp ->
  exists members,
    remote w = Reply (Some (JObj members)) /\
    lookup "response" members = Some resp /\ is_None resp = false.
Proof.
  unfold response_of.
  destruct (remote w) as [|[[| | | | |members]|]]; try discriminate.
  destruct (lookup "response" members) as [v|] eqn:E; [|discriminate].
  intros H. exists members. split; [reflexivity|].
  destruct v; try discriminate; injection H as <-; split; auto.
Qed.

(** The API branch on a reply that holds a response and a table pandas
    accepts. *)
Lemma fetch_response_run (w : World) (csv_filepath airport_iata : string)
    (latest_csv_name : option string) (resp : json) (df : frame L) (s : State L) :
  response_of (remote w) = Some resp ->
  pd_DataFrame L resp = inr df ->
  fetch L w csv_filepath airport_iata latest_csv_name s
  = let data := setitem_scalar L df "timestamp_api_call" (now w) in
    if writable w
    then (inr data,
          mkState ((cache_path csv_filepath airport_iata (today w), to_csv L data) :: files s)
                  ((trace s ++ [http_event airport_iata w])
                     ++ [EvWriteFile (cache_path csv_filepath airport_iata (today w))]))
    else (inl OSError, mkState (files s) (trace s ++ [http_event airport_iata w])).
Proof.
  intros Hr Hdf. apply response_of_reply in Hr as (members & Hr & Hl & Hn).
  unfold fetch, requests_get, result_json, json_get, or_raise, emit, lift, write_csv.
  unfold bind at 1 2 3 4. cbn [fst snd files trace]. rewrite Hr.
  unfold ret at 1 2 3. cbn [fst snd files trace]. rewrite Hl, Hn.
  unfold bind, ret, raise. rewrite Hdf. cbn zeta.
  destruct (writable w); reflexivity.
Qed.

Lemma fresh_fetch_run (w : World)
    (csv_filename csv_filepath airport_iata : string)
    (fs : list (string * text L)) (latest : option string * option date)
    (resp : json) (df : frame L) :
  fst (latest_csv L csv_filename csv_filepath (start L fs)) = inr latest ->
  date_is (snd latest) (today w) = false ->
  response_of (remote w) = Some resp ->
  pd_DataFrame L resp = inr df ->
  writable w = true ->
  let data := setitem_scalar L df "timestamp_api_call" (now w) in
  load_data L w csv_filename csv_filepath airport_iata (start L fs)
  = (normalized L data,
     mkState ((cache_path csv_filepath airport_iata (today w), to_csv L data) :: fs)
             [EvGlob (os_path_join csv_filepath csv_filename);
              http_event airport_iata w;
              EvWriteFile (cache_path csv_filepath airport_iata (today w))]).
Proof.
  intros H Hd Hr Hdf Hw data.
  rewrite (load_data_steps L w _ _ airport_iata fs _ H). rewrite Hd.
  unfold bind. rewrite (fetch_response_run w _ _ _ resp df) by assumption.
  rewrite Hw. cbv beta iota zeta. rewrite normalize_run. reflexivity.
Qed.

(** X15: A stale or absent cache and a reply that holds a response: when pandas
    accepts the response and the directory takes the file, [load_data]
    issues one GET, stamps the table with the time of the call, writes it
    under the name of today on top of the files already there (none is
    removed), and returns the stamped table with its time columns
    converted.  The file is written before the conversion: it is there
    even when the conversion fails and the run raises. *)
Theorem load_data_fresh_fetch (w : World)
    (csv_filename csv_filepath airport_iata : string)
    (fs : list (string * text L)) (latest : option string * option date)
    (resp : json) (df : frame L) :
  fst (latest_csv L csv_filename csv_filepath (start L fs)) = inr latest ->
  date_is (snd latest) (today w) = false ->
  response_of (remote w) = Some resp ->
  pd_DataFrame L resp = inr df ->
  writable w = true ->
  let data := setitem_scalar L df "timestamp_api_call" (now w) in
  load_data L w csv_filename csv_filepath airport_iata (start L fs)
  = (normalized L data,
     mkState ((cache_path csv_filepath airport_iata (today w), to_csv L data) :: fs)
             [EvGlob (os_path_join csv_filepath csv_filename);
              http_event airport_iata w;
              EvWriteFile (cache_path csv_filepath airport_iata (today w))]).
Proof. apply fresh_fetch_run. Qed.

(** X16: The same reply when the directory does not take the file: the write
    raises [OSError], which reaches the caller; neither the fetched table
    nor the stale cache is returned, and nothing is read. *)
Theorem load_data_write_failure (w : World)
    (csv_filename csv_filepath airport_iata : string)
    (fs : list (string * text L)) (latest : option string * option date)
    (resp : json) (df : frame L) :
  fst (latest_csv L csv_filename csv_filepath (start L fs)) = inr latest ->
  date_is (snd latest) (today w) = false ->
  response_of (remote w) = Some resp ->
  pd_DataFrame L resp = inr df ->
  writable w = false ->
  load_data L w csv_filename csv_filepath airport_iata (start L fs)
  = (inl OSError,
     mkState fs [EvGlob (os_path_join csv_filepath csv_filename);
                 http_event airport_iata w]).
Proof.
  intros H Hd Hr Hdf Hw.
  rewrite (load_data_steps L w _ _ airport_iata fs _ H). rewrite Hd.
  unfold bind. rewrite (fetch_response_run w _ _ _ resp df) by assumption.
  rewrite Hw. reflexivity.
Qed.

(** X17: A reply whose JSON document is not an object (a list, a string, a
    number, [null]) has no [get]: [AttributeError] reaches the caller and
    the stale cache is not read. *)
Theorem load_data_reply_not_object (w : World)
    (csv_filename csv_filepath airport_iata : string)
    (fs : list (string * text L)) (latest : option string * option date) (j : json) :
  fst (latest_csv L csv_filename csv_filepath (start L fs)) = inr latest ->
  date_is (snd latest) (today w) = false ->
  remote w = Reply (Some j) ->
  (forall members, j <> JObj members) ->
  load_data L w csv_filename csv_filepath airport_iata (start L fs)
  = (inl AttributeError,
     mkState fs [EvGlob (os_path_join csv_filepath csv_filename);
                 http_event airport_iata w]).
Proof.
  intros H Hd Hr Hj.
  rewrite (load_data_steps L w _ _ airport_iata fs _ H). rewrite Hd.
  run. rewrite Hr.
  destruct j; try reflexivity. exfalso. eapply Hj. reflexivity.
Qed.

(** X18: When the greatest matching name carries no date, the scan reports no
    cache, so with a reply that has no [response] the run raises
    [ValueError] without reading any file, dated caches or not. *)
Theorem load_data_undated_name_hides_caches (w : World)
    (csv_filename csv_filepath airport_iata : string)
    (fs : list (string * text L)) (name : string) :
  py_max (glob_glob L (map fst fs) (os_path_join csv_filepath csv_filename)) = Some name ->
  strptime_Ymd (slice_from_end 12 4 name) = None ->
  empty_response (remote w) = true ->
  load_data L w csv_filename csv_filepath airport_iata (start L fs)
  = (inl ValueError,
     mkState fs [EvGlob (os_path_join csv_filepath csv_filename);
                 http_event airport_iata w;
                 EvLogError "Airlabs API returned no data: "]).
Proof.
  intros Hmax Hdate He.
  destruct (latest_csv_value csv_filename csv_filepath fs) as (latest & Hl & Hv).
  cbv zeta in Hv. rewrite Hmax, Hdate in Hv. subst latest.
  rewrite (load_data_steps L w _ _ airport_iata fs _ Hl).
  cbn [fst snd date_is]. rewrite fetch_empty_response by exact He.
  reflexivity.
Qed.

(** ** What a run leaves on disk *)

Ltac break_run w :=
  repeat (match goal with
          | |- context [date_is ?a ?b] => destruct (date_is a b)
          | |- context [remote w] => destruct (remote w) as [|[[]|]]
          | |- context [writable w] => destruct (writable w)
          | |- context [lookup ?k ?l] => destruct (lookup k l)
          | |- context [read_csv L ?c] => destruct (read_csv L c)
          | |- context [pd_DataFrame L ?c] => destruct (pd_DataFrame L c)
          | |- context [to_datetime L ?a ?b] => destruct (to_datetime L a b)
          | |- context [is_None ?j] => destruct j
          | |- context [match ?o with Some _ => _ | None => _ end] =>
              is_var o; destruct o
          end; cbn).

Lemma bind_normalize_state {A} (m : M L A) (k : A -> frame L) (s : State L) :
  snd (bind m (fun a => normalize L (k a)) s) = snd (m s).
Proof.
  unfold bind. destruct (m s) as [[e|a] s']; [reflexivity|].
  rewrite normalize_run. reflexivity.
Qed.

Lemma read_effects (name : option string) (s : State L) :
  files (snd (pd_read_csv L name s)) = files s /\
  count is_write (trace (snd (pd_read_csv L name s))) = count is_write (trace s) /\
  count is_http (trace (snd (pd_read_csv L name s))) = count is_http (trace s).
Proof.
  destruct name as [path|]; [|repeat split].
  unfold pd_read_csv, emit, bind. cbn [fst snd files trace].
  destruct (lookup path (files s)); cbn [fst snd files trace];
    rewrite !count_app; unfold count; cbn; repeat split; lia.
Qed.

Lemma fetch_effects (w : World) (csv_filepath airport_iata pattern : string)
    (latest_csv_name : option string) (fs : list (string * text L)) :
  let r := fetch L w csv_filepath airport_iata latest_csv_name
                 (mkState fs [EvGlob pattern]) in
  (files (snd r) = fs /\ count is_write (trace (snd r)) = 0) \/
  (exists content,
      files (snd r) = (cache_path csv_filepath airport_iata (today w), content) :: fs /\
      count is_write (trace (snd r)) = 1 /\ count is_http (trace (snd r)) = 1).
Proof.
  intros r. unfold r. run. unfold count. break_run w;
    first [ left; split; reflexivity
          | right; eexists; split; [reflexivity | split; reflexivity] ].
Qed.

Lemma load_data_effects (w : World) (csv_filename csv_filepath airport_iata : string)
    (fs : list (string * text L)) :
  let r := load_data L w csv_filename csv_filepath airport_iata (start L fs) in
  (files (snd r) = fs /\ file_writes L r = 0) \/
  (exists content,
      files (snd r) = (cache_path csv_filepath airport_iata (today w), content) :: fs /\
      file_writes L r = 1 /\ api_calls L r = 1).
Proof.
  intros r. unfold r, api_calls, file_writes.
  destruct (latest_csv_run L csv_filename csv_filepath (start L fs)) as (latest & Hrun & _).
  rewrite (load_data_steps L w _ _ airport_iata fs latest) by (now rewrite Hrun).
  rewrite (bind_normalize_state _ (fun a => a)).
  destruct (date_is (snd latest) (today w)).
  - left.
    destruct (read_effects (fst latest)
                (mkState fs [EvGlob (os_path_join csv_filepath csv_filename)]))
      as (Hf & Hw & _).
    rewrite Hf, Hw. split; reflexivity.
  - apply fetch_effects.
Qed.

(** X19: Whatever the world, a run of [load_data] removes no file and
    writes at most one, the file named after today, and that only in a
    run that called the API: the directory is left as it was found, or
    holds one more binding, for today's path, which replaces the file of
    that path if there was one.  Every path present before is present
    afterwards, and every path other than today's reads what it read
    before. *)
Theorem load_data_keeps_files (w : World)
    (csv_filename csv_filepath airport_iata : string)
    (fs : list (string * text L)) :
  let r := load_data L w csv_filename csv_filepath airport_iata (start L fs) in
  file_writes L r <= 1 /\
  (files (snd r) = fs \/
   exists content,
     files (snd r) = (cache_path csv_filepath airport_iata (today w), content) :: fs /\
     api_calls L r = 1) /\
  (forall path content,
      path <> cache_path csv_filepath airport_iata (today w) ->
      lookup path fs = Some content ->
      lookup path (files (snd r)) = Some content) /\
  (forall path, lookup path fs <> None -> lookup path (files (snd r)) <> None).
Proof.
  intros r.
  destruct (load_data_effects w csv_filename csv_filepath airport_iata fs)
    as [[Hf Hw]|(c & Hf & Hw & Ha)]; fold r in Hf, Hw |- *.
  - rewrite Hf, Hw. split; [lia|]. split; [now left | auto].
  - fold r in Ha. rewrite Hf, Hw. split; [lia|]. split; [right; eauto|].
    split.
    + intros path content Hne Hl. cbn [lookup].
      destruct (String.eqb_spec (cache_path csv_filepath airport_iata (today w)) path)
        as [E|_]; [congruence | exact Hl].
    + intros path Hl. cbn [lookup].
      destruct (String.eqb (cache_path csv_filepath airport_iata (today w)) path);
        [discriminate | exact Hl].
Qed.

(** X20: After a run that fetched and wrote today's file, a second run on the
    same day whose scan finds that file greatest reads it back and calls
    the API no more: it returns what [read_csv] makes of the written text,
    time columns converted. *)
Theorem load_data_second_run (w w2 : World)
    (csv_filename csv_filepath airport_iata : string)
    (fs : list (string * text L)) (latest : option string * option date)
    (resp : json) (df : frame L) :
  fst (latest_csv L csv_filename csv_filepath (start L fs)) = inr latest ->
  date_is (snd latest) (today w) = false ->
  response_of (remote w) = Some resp ->
  pd_DataFrame L resp = inr df ->
  writable w = true ->
  valid_date (today w) ->
  today w2 = today w ->
  let data := setitem_scalar L df "timestamp_api_call" (now w) in
  let today_path := cache_path csv_filepath airport_iata (today w) in
  let fs1 := files (snd (load_data L w csv_filename csv_filepath airport_iata (start L fs))) in
  py_max (glob_glob L (map fst fs1) (os_path_join csv_filepath csv_filename))
    = Some today_path ->
  fs1 = (today_path, to_csv L data) :: fs /\
  load_data L w2 csv_filename csv_filepath airport_iata (start L fs1)
  = (match read_csv L (to_csv L data) with
     | inr table => normalized L table
     | inl e => inl e
     end,
     mkState fs1 [EvGlob (os_path_join csv_filepath csv_filename);
                  EvReadFile today_path]).
Proof.
  intros H Hd Hr Hdf Hw Hv Ht data today_path fs1.
  assert (E : fs1 = (today_path, to_csv L data) :: fs).
  { unfold fs1. rewrite (fresh_fetch_run w _ _ _ fs latest resp df) by assumption.
    reflexivity. }
  intros Hmax. split; [exact E|].
  destruct (latest_csv_value csv_filename csv_filepath fs1) as (latest2 & Hl & Hval).
  cbv zeta in Hval. rewrite Hmax in Hval.
  unfold today_path in Hval. rewrite cache_path_read_back in Hval by exact Hv.
  destruct Hval as [-> _].
  rewrite (load_data_steps L w2 _ _ airport_iata fs1 _ Hl).
  cbn [fst snd date_is]. rewrite Ht, date_eqb_refl.
  rewrite read_then_normalize. cbn [files trace]. f_equal.
  unfold cached_dataset. rewrite E. cbn [lookup]. fold today_path.
  rewrite String.eqb_refl. reflexivity.
Qed.
End ProviderRuns.

(** ** The further properties on the example data *)

Ltac open_app_load :=
  repeat match goal with
         | |- context [app_load ?L ?w ?fs] =>
             change (app_load L w fs)
               with (load_data L w "lax_flights_*.csv" data_dir "LAX" (start L fs))
         end.

Lemma histogram_terminal_below_all_witness :
  1 <= List.length (filter_data sample (Some 5%Z) (Some "2")).
Proof.
  apply (proj1 (histogram_terminal_below_all sample (Some 5%Z) (Some "2")) 30 1).
  vm_compute. do 30 right. left. reflexivity.
Defined.

Lemma terminal_summary_bounded_witness :
  3 <= count (at_terminal "B") (filter_data sample None None).
Proof.
  apply (proj1 (terminal_summary_bounded sample None) "B" 3).
  vm_compute. right. left. reflexivity.
Defined.

Lemma airline_summary_rows_witness :
  row_airport (mkAirlineRow "B" "BA" 1 "LAX") = "LAX".
Proof.
  pose proof (airline_summary_rows sample None) as H. cbv zeta in H.
  destruct H as (_ & _ & _ & H).
  apply (H (mkAirlineRow "B" "BA" 1 "LAX")).
  vm_compute. right. right. left. reflexivity.
Defined.

Lemma airline_summary_covers_terminal_witness :
  In "B" (map fst (rows (group_data_by_terminal sample None))).
Proof.
  pose proof (airline_summary_covers_terminal sample None) as H. cbv zeta in H.
  apply (proj1 H "B"). vm_compute. right. left. reflexivity.
Defined.

Lemma py_max_greatest_witness :
  In "c" ["b"; "c"; "a"] /\ forall n, In n ["b"; "c"; "a"] -> String.leb n "c" = true.
Proof.
  apply (proj2 (py_max_greatest ["b"; "c"; "a"]) "c"). reflexivity.
Defined.

Lemma load_data_fresh_fetch_witness :
  fst (app_load mem_libs (world day2 fresh_reply) stale_files)
  = normalized mem_libs
      (mem_setitem fresh_table "timestamp_api_call" 1659430000000000000%Z).
Proof.
  pose proof (load_data_fresh_fetch mem_libs (world day2 fresh_reply)
                "lax_flights_*.csv" data_dir "LAX" stale_files
                (Some stale_name, Some day1) fresh_response fresh_table) as H.
  cbv zeta in H. open_app_load.
  rewrite H; [reflexivity | vm_compute; reflexivity ..].
Defined.

Lemma load_data_write_failure_witness :
  fst (app_load mem_libs (world_read_only day2 fresh_reply) stale_files) = inl OSError.
Proof.
  open_app_load.
  rewrite (load_data_write_failure mem_libs (world_read_only day2 fresh_reply)
             "lax_flights_*.csv" data_dir "LAX" stale_files
             (Some stale_name, Some day1) fresh_response fresh_table);
    [reflexivity | vm_compute; reflexivity ..].
Defined.

Lemma load_data_reply_not_object_witness :
  fst (app_load mem_libs (world day2 (Reply (Some (JArr [])))) stale_files)
  = inl AttributeError.
Proof.
  open_app_load.
  rewrite (load_data_reply_not_object mem_libs (world day2 (Reply (Some (JArr []))))
             "lax_flights_*.csv" data_dir "LAX" stale_files
             (Some stale_name, Some day1) (JArr []));
    [reflexivity | vm_compute; reflexivity | vm_compute; reflexivity
     | reflexivity | discriminate].
Defined.

Lemma load_data_undated_name_hides_caches_witness :
  fst (app_load mem_libs (world day2 (Reply (Some (JObj [])))) undated_files)
  = inl ValueError.
Proof.
  open_app_load.
  rewrite (load_data_undated_name_hides_caches mem_libs
             (world day2 (Reply (Some (JObj []))))
             "lax_flights_*.csv" data_dir "LAX" undated_files undated_name);
    [reflexivity | vm_compute; reflexivity ..].
Defined.

Lemma load_data_keeps_files_witness :
  lookup stale_name
         (files (snd (app_load mem_libs (world day2 fresh_reply) stale_files)))
  = Some stale_table.
Proof.
  pose proof (load_data_keeps_files mem_libs (world day2 fresh_reply)
                "lax_flights_*.csv" data_dir "LAX" stale_files) as H.
  cbv zeta in H. destruct H as (_ & _ & H & _).
  apply H; [|reflexivity].
  intros E. apply (f_equal (fun s => String.eqb s stale_name)) in E.
  vm_compute in E. discriminate.
Defined.

Lemma load_data_second_run_witness :
  api_calls mem_libs
    (load_data mem_libs (world day2 ConnectionFailed) "lax_flights_*.csv" data_dir "LAX"
       (start mem_libs
          (files (snd (app_load mem_libs (world day2 fresh_reply) stale_files)))))
  = 0.
Proof.
  pose proof (load_data_second_run mem_libs (world day2 fresh_reply)
                (world day2 ConnectionFailed)
                "lax_flights_*.csv" data_dir "LAX" stale_files
                (Some stale_name, Some day1) fresh_response fresh_table) as H.
  cbv zeta in H. open_app_load.
  destruct H as [_ H];
    [vm_compute; reflexivity | vm_compute; reflexivity | vm_compute; reflexivity
     | vm_compute; reflexivity | vm_compute; reflexivity
     | unfold valid_date; cbn; lia | reflexivity | vm_compute; reflexivity |].
  rewrite H. reflexivity.
Defined.


(* ===================================================================== *)
(** * Part IX: one write and read of a cache file                         *)
(* ===================================================================== *)

Local Open Scope Z_scope.

(** ** Digits *)

Lemma pow10_pos (k : nat) : 0 < 10 ^ Z.of_nat k.
Proof. apply Z.pow_pos_nonneg; lia. Qed.

Lemma read_digits_digits (k : nat) (acc n : Z) (rest : list ascii) :
  read_digits k acc (digits k n ++ rest)
  = Some (acc * 10 ^ Z.of_nat k + n mod 10 ^ Z.of_nat k, rest).
Proof.
  revert acc. induction k as [|k IH]; intros acc.
  - cbn [digits read_digits app]. f_equal. f_equal.
    change (10 ^ Z.of_nat 0) with 1. rewrite Z.mod_1_r. lia.
  - cbn [digits read_digits app].
    destruct (digit_char_spec (n / 10 ^ Z.of_nat k)) as [Hd Hv].
    rewrite Hd, IH, Hv. f_equal. f_equal.
    pose proof (pow10_pos k) as Hp.
    replace (10 ^ Z.of_nat (S k)) with (10 ^ Z.of_nat k * 10)
      by (rewrite Nat2Z.inj_succ, Z.pow_succ_r by lia; lia).
    rewrite (Z.rem_mul_r n (10 ^ Z.of_nat k) 10) by lia.
    lia.
Qed.

Lemma read_digits_exact (k : nat) (n : Z) (rest : list ascii) :
  0 <= n < 10 ^ Z.of_nat k ->
  read_digits k 0 (digits k n ++ rest) = Some (n, rest).
Proof.
  intros H. rewrite read_digits_digits. rewrite Z.mod_small by exact H.
  reflexivity.
Qed.

Lemma digits_length (k : nat) (n : Z) : List.length (digits k n) = k.
Proof. induction k as [|k IH]; cbn [digits List.length]; [reflexivity | now rewrite IH]. Qed.

(** ** Integers as text *)

Lemma parse_print_int (z : Z) : parse_int (print_int z) = Some z.
Proof.
  unfold parse_int, print_int.
  rewrite NilZero.isi.
  - cbn [option_map]. now rewrite DecimalZ.of_to.
  - destruct z; cbn; try discriminate;
      intros H; injection H as H; now apply DecimalPos.Unsigned.to_uint_nonnil in H.
  - destruct z; cbn; try discriminate;
      intros H; injection H as H; now apply DecimalPos.Unsigned.to_uint_nonnil in H.
Qed.

Lemma is_int_literal_print (z : Z) :
  int64_min <= z <= int64_max -> is_int_literal (print_int z) = true.
Proof.
  intros H. unfold is_int_literal. rewrite parse_print_int, String.eqb_refl.
  cbn [andb]. apply andb_true_intro. split; apply Z.leb_le; lia.
Qed.

Lemma numeric_from_uint (d : Decimal.uint) (prev : option ascii) :
  numeric_from prev (list_ascii_of_string (NilEmpty.string_of_uint d)) = true.
Proof.
  revert prev. induction d; intros prev; cbn [NilEmpty.string_of_uint list_ascii_of_string];
    [reflexivity | cbn [numeric_from]; rewrite IHd; reflexivity ..].
Qed.

Lemma numeric_like_print (z : Z) : numeric_like (print_int z) = true.
Proof.
  unfold numeric_like. apply orb_true_intro. left.
  unfold print_int, NilZero.string_of_int.
  assert (H : forall d prev,
             numeric_from prev (list_ascii_of_string (NilZero.string_of_uint d)) = true).
  { intros d prev. unfold NilZero.string_of_uint.
    destruct d; try apply numeric_from_uint. reflexivity. }
  destruct (Z.to_int z) as [d|d].
  - apply H.
  - cbn [list_ascii_of_string numeric_from]. rewrite H. reflexivity.
Qed.

Lemma text_like_print (z : Z) : text_like (print_int z) = false.
Proof.
  unfold text_like. rewrite numeric_like_print. cbn [negb]. apply andb_false_r.
Qed.

(** ** What a column comes back as *)

Lemma infer_object (cells : list (option string)) :
  existsb text_like (render_column (ObjectCol cells)) = true ->
  (forall s, In (Some s) cells -> is_na s = false) ->
  infer_column (render_column (ObjectCol cells)) = ObjectCol cells.
Proof.
  intros Ht Hna. unfold infer_column. rewrite Ht.
  destruct (render_column (ObjectCol cells)) as [|f fs] eqn:E.
  - destruct cells; [reflexivity | discriminate].
  - rewrite <- E. f_equal. cbn [render_column]. rewrite map_map.
    rewrite <- (map_id cells) at 2. apply map_ext_in.
    intros [s|] Hin; [now rewrite (Hna s Hin) | reflexivity].
Qed.

Lemma infer_int (cells : list Z) :
  cells <> [] ->
  Forall (fun z => int64_min <= z <= int64_max) cells ->
  infer_column (render_column (IntCol cells)) = IntCol cells.
Proof.
  intros Hne Hr. unfold infer_column. cbn [render_column].
  destruct (map print_int cells) as [|f fs] eqn:E;
    [destruct cells; [contradiction | discriminate]|].
  rewrite <- E.
  assert (H1 : existsb text_like (map print_int cells) = false).
  { clear. induction cells as [|z cells IH]; [reflexivity|].
    cbn [map existsb]. now rewrite text_like_print, IH. }
  assert (H2 : forallb is_int_literal (map print_int cells) = true).
  { clear - Hr. induction Hr as [|z cells Hz _ IH]; [reflexivity|].
    cbn [map forallb]. now rewrite is_int_literal_print, IH. }
  rewrite H1, H2. f_equal. rewrite map_map.
  rewrite <- (map_id cells) at 2. apply map_ext. intros z.
  now rewrite parse_print_int.
Qed.

(** ** Day numbers and calendar dates *)

Ltac to_props :=
  rewrite ?andb_true_iff, ?andb_false_iff, ?orb_true_iff, ?orb_false_iff,
          ?negb_true_iff, ?negb_false_iff,
          ?Z.ltb_lt, ?Z.leb_le, ?Z.ltb_ge, ?Z.leb_gt, ?Z.eqb_eq, ?Z.eqb_neq in *.

(** The date of a day number leads back to the day number. *)
Lemma days_from_civil_from_days (z : Z) :
  let '(y, m, d) := civil_from_days z in days_from_civil y m d = z.
Proof.
  unfold civil_from_days, days_from_civil. cbv zeta.
  destruct (_ <? 10) eqn:E1; destruct (_ <=? 2) eqn:E2; destruct (2 <? _) eqn:E3;
    to_props; Z.div_mod_to_equations; lia.
Qed.

Lemma civil_month (z : Z) :
  let '(y, m, d) := civil_from_days z in 1 <= m <= 12.
Proof.
  unfold civil_from_days. cbv zeta.
  destruct (_ <? 10) eqn:E1; to_props; Z.div_mod_to_equations; lia.
Qed.

(** The day of the month exists in that month of that year. *)
Lemma civil_day (z : Z) :
  let '(y, m, d) := civil_from_days z in 1 <= d <= days_in_month y m.
Proof.
  unfold civil_from_days, days_in_month, is_leap. cbv zeta.
  destruct (_ <? 10) eqn:E1; destruct (_ <=? 2) eqn:E2; destruct (_ =? 2) eqn:E3;
    try destruct (_ && _) eqn:E4; try destruct (_ || _) eqn:E5;
    to_props; Z.div_mod_to_equations; lia.
Qed.

(** The years of the [datetime64[ns]] range, 1677-09-21 to 2262-04-11. *)
Lemma civil_year (z : Z) :
  -106752 <= z <= 106751 ->
  let '(y, m, d) := civil_from_days z in 1677 <= y <= 2262.
Proof.
  unfold civil_from_days. cbv zeta. intros H.
  destruct (_ <? 10) eqn:E1; destruct (_ <=? 2) eqn:E2;
    to_props; Z.div_mod_to_equations; lia.
Qed.

Lemma days_in_range (t : Timestamp) :
  int64_min < t <= int64_max -> -106752 <= t / ns_per_day <= 106751.
Proof.
  unfold int64_min, int64_max, ns_per_day, ns_per_hour, ns_per_minute.
  intros H. Z.div_mod_to_equations. lia.
Qed.

(** ** The written form of a timestamp *)

Lemma is_digit_plain (c : ascii) : is_digit c = true -> sign_place (Some c) = false.
Proof.
  destruct c as [[] [] [] [] [] [] [] []]; intros H; vm_compute in H;
    try discriminate H; reflexivity.
Qed.

Lemma numeric_from_dash (pre : list ascii) (prev : option ascii) (c : ascii)
      (rest : list ascii) :
  is_digit c = true -> numeric_from prev (pre ++ c :: "-"%char :: rest) = false.
Proof.
  intros Hc. revert prev. induction pre as [|p pre IH]; intros prev.
  - assert (H : numeric_from (Some c) ("-"%char :: rest) = false)
      by (cbn [numeric_from]; rewrite (is_digit_plain c Hc); reflexivity).
    cbn [app]. cbn [numeric_from] in *. rewrite H. apply andb_false_r.
  - cbn [app numeric_from]. rewrite IH. apply andb_false_r.
Qed.

Lemma numeric_from_digits_dash (k : nat) (n : Z) (prev : option ascii)
      (rest : list ascii) :
  (0 < k)%nat -> numeric_from prev (digits k n ++ "-"%char :: rest) = false.
Proof.
  revert prev. induction k as [|k IH]; intros prev Hk; [lia|].
  destruct k as [|k].
  - apply (numeric_from_dash []). apply digit_char_spec.
  - change (digits (S (S k)) n)
      with (digit_char (n / 10 ^ Z.of_nat (S k)) :: digits (S k) n).
    cbn [app numeric_from]. rewrite IH by lia. apply andb_false_r.
Qed.

Lemma length_string_of_list (l : list ascii) :
  String.length (string_of_list_ascii l) = List.length l.
Proof. induction l as [|c l IH]; cbn; [reflexivity | now rewrite IH]. Qed.

Lemma lower_length (s : string) : String.length (lower s) = String.length s.
Proof. induction s as [|c s IH]; cbn [lower String.length]; [reflexivity | now rewrite IH]. Qed.

Lemma not_among (s : string) (ws : list string) :
  Forall (fun w => (String.length w < String.length s)%nat) ws ->
  existsb (String.eqb s) ws = false.
Proof.
  induction 1 as [|w ws Hw _ IH]; [reflexivity|].
  cbn [existsb]. rewrite IH, orb_false_r.
  apply String.eqb_neq. intros ->. lia.
Qed.

Lemma text_like_long (s : string) :
  (10 <= String.length s)%nat ->
  numeric_from None (list_ascii_of_string s) = false ->
  text_like s = true.
Proof.
  intros Hlen Hnum. unfold text_like, numeric_like, is_na, is_bool_word.
  rewrite Hnum.
  rewrite !not_among; [reflexivity | ..];
    unfold inf_words, bool_words, na_values; rewrite ?lower_length;
    repeat (apply Forall_cons; [cbn [String.length]; lia|]); apply Forall_nil.
Qed.

Lemma format_time_length (style : time_style) (t : Timestamp) :
  (10 <= String.length (format_time style t))%nat.
Proof.
  unfold format_time.
  destruct (civil_from_days (t / ns_per_day)) as [[y m] d].
  rewrite length_string_of_list.
  repeat (rewrite length_app; cbn [List.length]).
  rewrite !digits_length. lia.
Qed.

Lemma format_time_not_numeric (style : time_style) (t : Timestamp) :
  numeric_from None (list_ascii_of_string (format_time style t)) = false.
Proof.
  unfold format_time.
  destruct (civil_from_days (t / ns_per_day)) as [[y m] d].
  rewrite list_ascii_of_string_of_list_ascii.
  apply numeric_from_digits_dash. lia.
Qed.

Lemma text_like_format_time (style : time_style) (t : Timestamp) :
  text_like (format_time style t) = true.
Proof.
  apply text_like_long; [apply format_time_length | apply format_time_not_numeric].
Qed.

Lemma text_like_not_na (s : string) : text_like s = true -> is_na s = false.
Proof.
  unfold text_like. intros H.
  apply andb_prop in H as [H _]. apply andb_prop in H as [H _].
  now apply negb_true_iff in H.
Qed.

Lemma is_na_format_time (style : time_style) (t : Timestamp) :
  is_na (format_time style t) = false.
Proof. apply text_like_not_na, text_like_format_time. Qed.

(** ** Reading the written form *)

Lemma expect_cons (c : ascii) (l : list ascii) : expect c (c :: l) = Some l.
Proof. unfold expect. now rewrite Ascii.eqb_refl. Qed.

Lemma time_of_day_ok (h m sec f : Z) :
  h < 24 -> m < 60 -> sec < 60 ->
  time_of_day h m sec f
  = Some (h * ns_per_hour + m * ns_per_minute + sec * ns_per_second + f).
Proof.
  intros Hh Hm Hs. unfold time_of_day.
  now rewrite (proj2 (Z.ltb_lt _ _) Hh), (proj2 (Z.ltb_lt _ _) Hm), (proj2 (Z.ltb_lt _ _) Hs).
Qed.

Lemma time_split (r : Z) :
  r / ns_per_hour * ns_per_hour + (r / ns_per_minute) mod 60 * ns_per_minute
  + (r / ns_per_second) mod 60 * ns_per_second + r mod ns_per_second = r.
Proof.
  unfold ns_per_hour, ns_per_minute, ns_per_second.
  Z.div_mod_to_equations. lia.
Qed.

Lemma time_bounds (r : Z) :
  0 <= r < ns_per_day ->
  0 <= r / ns_per_hour < 24 /\ 0 <= (r / ns_per_minute) mod 60 < 60
  /\ 0 <= (r / ns_per_second) mod 60 < 60 /\ 0 <= r mod ns_per_second < ns_per_second.
Proof.
  unfold ns_per_day, ns_per_hour, ns_per_minute, ns_per_second.
  intros H. Z.div_mod_to_equations. lia.
Qed.

Lemma fraction_exact (x p : Z) : 0 < p -> x mod p = 0 -> x / p * p = x.
Proof. intros Hp H. Z.div_mod_to_equations. nia. Qed.

Lemma read_fraction_digits (k : nat) (f : Z) :
  (1 <= k <= 9)%nat -> 0 <= f < 10 ^ Z.of_nat k ->
  read_fraction (digits k f) = Some (f * 10 ^ Z.of_nat (9 - k)).
Proof.
  intros Hk Hf. unfold read_fraction. rewrite digits_length.
  replace ((1 <=? k)%nat && (k <=? 9)%nat) with true
    by (symmetry; apply andb_true_intro; split; apply Nat.leb_le; lia).
  rewrite <- (app_nil_r (digits k f)) at 1.
  now rewrite read_digits_exact.
Qed.

Lemma read_time_format (k : nat) (r : Z) :
  0 <= r < ns_per_day ->
  (k = 0 \/ k = 3 \/ k = 6 \/ k = 9)%nat ->
  (r mod ns_per_second) mod 10 ^ Z.of_nat (9 - k) = 0 ->
  read_time
    (digits 2 (r / ns_per_hour) ++
     ":"%char :: digits 2 ((r / ns_per_minute) mod 60) ++
     ":"%char :: digits 2 ((r / ns_per_second) mod 60) ++
     match k with
     | O => []
     | _ => "."%char :: digits k ((r mod ns_per_second) / 10 ^ Z.of_nat (9 - k))
     end) = Some r.
Proof.
  intros Hr Hk Hz.
  destruct (time_bounds r Hr) as (Hh & Hm & Hs & Hf).
  pose proof (time_split r) as Hsplit.
  unfold read_time.
  rewrite read_digits_exact by (change (10 ^ Z.of_nat 2) with 100; lia).
  cbn [obind]. rewrite expect_cons. cbn [obind].
  rewrite read_digits_exact by (change (10 ^ Z.of_nat 2) with 100; lia).
  cbn [obind]. rewrite expect_cons. cbn [obind].
  rewrite read_digits_exact by (change (10 ^ Z.of_nat 2) with 100; lia).
  cbn [obind].
  assert (Hp : 0 < 10 ^ Z.of_nat (9 - k)) by apply pow10_pos.
  pose proof (fraction_exact _ _ Hp Hz) as Hfrac.
  assert (Hk' : k = 0%nat \/ (1 <= k <= 9)%nat) by lia.
  destruct Hk' as [->|Hk'].
  - rewrite time_of_day_ok by lia. f_equal.
    change (10 ^ Z.of_nat (9 - 0)) with ns_per_second in Hz.
    rewrite Z.mod_small in Hz by lia. lia.
  - destruct k as [|k]; [lia|].
    rewrite Ascii.eqb_refl.
    rewrite read_fraction_digits.
    + cbn [obind]. rewrite time_of_day_ok by lia. f_equal. lia.
    + exact Hk'.
    + split; [apply Z.div_pos; lia|].
      apply Z.div_lt_upper_bound; [exact Hp|].
      rewrite <- Z.pow_add_r by lia.
      replace (Z.of_nat (9 - S k) + Z.of_nat (S k)) with 9 by lia.
      change (10 ^ 9) with ns_per_second. lia.
Qed.

Lemma days_in_month_le (y m : Z) : days_in_month y m <= 31.
Proof.
  unfold days_in_month.
  destruct (m =? 2); [destruct (is_leap y); lia|].
  destruct ((m =? 4) || (m =? 6) || (m =? 9) || (m =? 11)); lia.
Qed.

Lemma parse_format_time (style : time_style) (t : Timestamp) :
  int64_min < t <= int64_max -> style_fits style t ->
  parse_datetime (format_time style t) = Some t.
Proof.
  intros Hr Hs.
  pose proof (civil_year _ (days_in_range t Hr)) as Hy.
  pose proof (civil_month (t / ns_per_day)) as Hm.
  pose proof (civil_day (t / ns_per_day)) as Hd.
  pose proof (days_from_civil_from_days (t / ns_per_day)) as Hback.
  assert (Hday : 0 < ns_per_day) by reflexivity.
  pose proof (Z.div_mod t ns_per_day ltac:(lia)) as Ht.
  pose proof (Z.mod_pos_bound t ns_per_day Hday) as Hrem.
  unfold format_time, parse_datetime.
  destruct (civil_from_days (t / ns_per_day)) as [[y m] d].
  pose proof (days_in_month_le y m) as Hdim.
  rewrite list_ascii_of_string_of_list_ascii.
  rewrite read_digits_exact by (change (10 ^ Z.of_nat 4) with 10000; lia).
  cbn [obind]. rewrite expect_cons. cbn [obind].
  rewrite read_digits_exact by (change (10 ^ Z.of_nat 2) with 100; lia).
  cbn [obind]. rewrite expect_cons. cbn [obind].
  rewrite read_digits_exact by (change (10 ^ Z.of_nat 2) with 100; lia).
  cbn [obind].
  replace ((1 <=? y) && (1 <=? m) && (m <=? 12) && (1 <=? d) && (d <=? days_in_month y m))
    with true by (symmetry; to_props; lia).
  rewrite Hback.
  assert (Hin : (int64_min <? t) && (t <=? int64_max) = true)
    by (apply andb_true_intro; split; [apply Z.ltb_lt | apply Z.leb_le]; lia).
  destruct style as [|k].
  - cbn [style_fits] in Hs. cbn [obind].
    replace (t / ns_per_day * ns_per_day + 0) with t by lia.
    now rewrite Hin.
  - destruct Hs as [Hk Hz].
    change (Ascii.eqb " " " " || Ascii.eqb " " "T")%char with true. cbn iota.
    rewrite read_time_format.
    + cbn [obind].
      replace (t / ns_per_day * ns_per_day + t mod ns_per_day) with t by lia.
      now rewrite Hin.
    + exact Hrem.
    + exact Hk.
    + replace ((t mod ns_per_day) mod ns_per_second) with (t mod ns_per_second);
        [exact Hz|].
      unfold ns_per_day, ns_per_hour, ns_per_minute, ns_per_second.
      Z.div_mod_to_equations. lia.
Qed.

Lemma existsb_false_In {A} (f : A -> bool) (l : list A) (x : A) :
  existsb f l = false -> In x l -> f x = false.
Proof.
  intros H Hin. destruct (f x) eqn:E; [|reflexivity].
  rewrite <- H. symmetry. apply existsb_exists. now exists x.
Qed.

Lemma column_style_fits (cells : list (option Timestamp)) (t : Timestamp) :
  In (Some t) cells -> style_fits (column_style cells) t.
Proof.
  intros Hin. apply In_dropna in Hin. unfold column_style.
  destruct (forallb (fun t => t mod ns_per_day =? 0) (dropna cells)) eqn:E0.
  { cbn [style_fits]. rewrite forallb_forall in E0. apply Z.eqb_eq. now apply E0. }
  destruct (existsb (fun t => negb (t mod 1000 =? 0)) (dropna cells)) eqn:E9.
  { split; [tauto|]. change (10 ^ Z.of_nat (9 - 9)) with 1. apply Z.mod_1_r. }
  pose proof (existsb_false_In _ _ t E9 Hin) as H9.
  apply negb_false_iff, Z.eqb_eq in H9. clear E9.
  destruct (existsb (fun t => negb (t mod 1000000 =? 0)) (dropna cells)) eqn:E6.
  { split; [tauto|]. change (10 ^ Z.of_nat (9 - 6)) with 1000.
    unfold ns_per_second. Z.div_mod_to_equations. lia. }
  pose proof (existsb_false_In _ _ t E6 Hin) as H6.
  apply negb_false_iff, Z.eqb_eq in H6. clear E6.
  destruct (existsb (fun t => negb (t mod ns_per_second =? 0)) (dropna cells)) eqn:E3.
  { split; [tauto|]. change (10 ^ Z.of_nat (9 - 3)) with 1000000.
    unfold ns_per_second. Z.div_mod_to_equations. lia. }
  pose proof (existsb_false_In _ _ t E3 Hin) as H3.
  apply negb_false_iff, Z.eqb_eq in H3. clear E3.
  split; [tauto|]. change (10 ^ Z.of_nat (9 - 0)) with 1000000000.
  unfold ns_per_second in *. Z.div_mod_to_equations. lia.
Qed.

(** ** What a column comes back as *)

Lemma infer_texts (f : Timestamp -> string) (cells : list (option Timestamp)) :
  (forall t, text_like (f t) = true) ->
  existsb (fun x => match x with Some _ => true | None => false end) cells = true ->
  infer_column (map (fun x => match x with Some t => f t | None => "" end) cells)
  = ObjectCol (map (option_map f) cells).
Proof.
  intros Hf Hex. unfold infer_column.
  set (g := fun x : option Timestamp => match x with Some t => f t | None => "" end).
  assert (Ht : existsb text_like (map g cells) = true).
  { apply existsb_exists in Hex as [x [Hin Hx]]. destruct x as [t|]; [|discriminate Hx].
    apply existsb_exists. exists (f t). split; [|apply Hf].
    apply (in_map g) in Hin. exact Hin. }
  rewrite Ht.
  destruct (map g cells) as [|s ss] eqn:E.
  - destruct cells; [discriminate Hex | discriminate E].
  - rewrite <- E. f_equal. rewrite map_map. apply map_ext.
    intros [t|]; cbn [g option_map]; [|reflexivity].
    now rewrite (text_like_not_na _ (Hf t)).
Qed.

Lemma parse_cells_texts (f : Timestamp -> string) (cells : list (option Timestamp)) :
  (forall t, In (Some t) cells -> parse_datetime (f t) = Some t) ->
  parse_cells (map (option_map f) cells) = Some cells.
Proof.
  induction cells as [|[t|] cells IH]; intros H; [reflexivity | |].
  - cbn [map option_map parse_cells].
    rewrite (H t) by (left; reflexivity).
    rewrite IH by (intros t' Ht'; apply H; right; exact Ht'). reflexivity.
  - cbn [map option_map parse_cells].
    rewrite IH by (intros t' Ht'; apply H; right; exact Ht'). reflexivity.
Qed.

Lemma time_column_back (cells : list (option Timestamp)) :
  existsb (fun x => match x with Some _ => true | None => false end) cells = true ->
  forallb (fun x => match x with
                    | Some t => (int64_min <? t) && (t <=? int64_max)
                    | None => true
                    end) cells = true ->
  to_datetime_column (infer_column (render_column (TimeCol cells)))
  = inr (TimeCol cells).
Proof.
  intros Hex Hall. cbn [render_column].
  rewrite (infer_texts (format_time (column_style cells)))
    by (intros; apply text_like_format_time || exact Hex).
  cbn [to_datetime_column]. rewrite parse_cells_texts; [reflexivity|].
  intros t Hin. apply parse_format_time; [|now apply column_style_fits].
  rewrite forallb_forall in Hall. specialize (Hall _ Hin). cbn beta iota in Hall.
  apply andb_prop in Hall as [H1 H2]. apply Z.ltb_lt in H1. apply Z.leb_le in H2. lia.
Qed.

Lemma column_back (n : string) (c : column) :
  safe_column n c = true ->
  same_after time_names (n, c) (n, infer_column (render_column c)).
Proof.
  intros H. split; [reflexivity|]. cbn [fst snd].
  destruct c as [cells|cells|cells|fields]; cbn [safe_column] in H.
  - left. symmetry. apply andb_prop in H as [H1 H2]. apply infer_object; [exact H1|].
    intros s Hin. rewrite forallb_forall in H2. specialize (H2 _ Hin). cbn beta iota in H2.
    now apply negb_true_iff in H2.
  - left. symmetry. apply andb_prop in H as [H1 H2]. apply infer_int.
    + intros ->. discriminate H1.
    + apply Forall_forall. intros z Hin. rewrite forallb_forall in H2.
      specialize (H2 _ Hin). cbn beta in H2. apply andb_prop in H2 as [Ha Hb].
      apply Z.leb_le in Ha. apply Z.leb_le in Hb. lia.
  - right. apply andb_prop in H as [H H3]. apply andb_prop in H as [H1 H2].
    split; [|split].
    + unfold is_time_name in H1. apply existsb_exists in H1 as [w [Hw E]].
      apply String.eqb_eq in E. now subst w.
    + now exists cells.
    + now apply time_column_back.
  - discriminate H.
Qed.

(** ** The conversion of the time columns *)

Lemma distinct_NoDup (names : list string) : distinct names = true -> NoDup names.
Proof.
  induction names as [|n rest IH]; intros H; [constructor|].
  cbn [distinct] in H. apply andb_prop in H as [H1 H2].
  constructor; [|now apply IH].
  intros Hin. apply negb_true_iff in H1.
  rewrite (proj2 (existsb_exists _ _)) in H1; [discriminate H1|].
  exists n. split; [exact Hin | apply String.eqb_refl].
Qed.

Lemma same_after_drop (name : string) (pending : list string) (x y : string * column) :
  same_after (name :: pending) x y -> fst x <> name -> same_after pending x y.
Proof.
  intros [Hn [Hc|(Hin & Hcells & Hconv)]] Hne; split; try exact Hn; [now left|].
  right. split; [|now split]. destruct Hin as [Hin|Hin]; [now subst | exact Hin].
Qed.

Lemma same_after_rest (name : string) (pending : list string) (t u : table) :
  Forall2 (same_after (name :: pending)) t u -> ~ In name (map fst t) ->
  Forall2 (same_after pending) t u.
Proof.
  induction 1 as [|x y t u Hxy _ IH]; intros Hnot; constructor.
  - apply (same_after_drop name); [exact Hxy|].
    intros E. apply Hnot. left. exact E.
  - apply IH. intros Hin. apply Hnot. right. exact Hin.
Qed.

Lemma same_after_refl (pending : list string) (x : string * column) :
  same_after pending x x.
Proof. split; [reflexivity | now left]. Qed.

Lemma to_datetime_step (name : string) (pending : list string) (t u : table) :
  NoDup (map fst t) ->
  Forall2 (same_after (name :: pending)) t u ->
  match pandas_to_datetime t name, pandas_to_datetime u name with
  | inr t', inr u' => Forall2 (same_after pending) t' u' /\ map fst t' = map fst t
  | inl e, inl e' => e = e'
  | _, _ => False
  end.
Proof.
  intros Hnd H. induction H as [|[n c] [n' c'] t u Hxy Hrest IH]; [reflexivity|].
  cbn [map fst] in Hnd. apply NoDup_cons_iff in Hnd as [Hnot Hnd].
  destruct Hxy as [Hn Hc]. cbn [fst snd] in Hn, Hc. subst n'.
  cbn [pandas_to_datetime].
  destruct (String.eqb n name) eqn:E.
  - apply String.eqb_eq in E. subst n.
    pose proof (same_after_rest _ _ _ _ Hrest Hnot) as Hrest'.
    destruct Hc as [Hc|(_ & [cells Hcells] & Hconv)].
    + subst c'. destruct (to_datetime_column c) as [e|c2]; [reflexivity|].
      split; [|reflexivity]. constructor; [apply same_after_refl | exact Hrest'].
    + subst c. rewrite Hconv. cbn [to_datetime_column].
      split; [|reflexivity]. constructor; [apply same_after_refl | exact Hrest'].
  - specialize (IH Hnd).
    destruct (pandas_to_datetime t name) as [e|t'],
             (pandas_to_datetime u name) as [e'|u']; try exact IH.
    destruct IH as [IH1 IH2]. split; [|cbn [map fst]; now rewrite IH2].
    constructor; [|exact IH1].
    apply (same_after_drop name); [split; [reflexivity | exact Hc]|].
    cbn [fst]. intros ->. rewrite String.eqb_refl in E. discriminate E.
Qed.

Lemma same_after_nil (t u : table) : Forall2 (same_after []) t u -> t = u.
Proof.
  induction 1 as [|[n c] [n' c'] t u [Hn Hc] _ IH]; [reflexivity|].
  cbn [fst snd] in Hn, Hc. subst n'.
  destruct Hc as [Hc|(Hin & _)]; [|destruct Hin]. now subst.
Qed.

Lemma read_csv_to_csv (t : table) :
  forallb (fun nc => safe_column (fst nc) (snd nc)) t = true ->
  Forall2 (same_after time_names) t (pandas_read_csv (pandas_to_csv t)).
Proof.
  induction t as [|[n c] t IH]; intros H; [constructor|].
  cbn [forallb fst snd] in H. apply andb_prop in H as [H1 H2].
  cbn [pandas_to_csv pandas_read_csv map fst snd].
  constructor; [now apply column_back | now apply IH].
Qed.

(** C9: one write and read of a cache file, followed by the conversion of
    [dep_time] and [timestamp_api_call] (source lines 59-60), gives the
    dataset that the conversion gives on the frame that was written
    (lines 48-57), for every frame whose columns have distinct names and
    are text columns with a cell the reader keeps as text and no cell
    spelled as a missing value, non-empty [int64] columns, and time
    columns with a value under the two converted names: such a frame
    includes the added [timestamp_api_call] column. *)
Theorem cache_round_trip (t : table) :
  safe_table t = true -> read_back t = pandas_normalized t.
Proof.
  unfold safe_table. intros H. apply andb_prop in H as [Hd Hs].
  apply distinct_NoDup in Hd. apply read_csv_to_csv in Hs.
  unfold read_back, pandas_normalized.
  pose proof (to_datetime_step "dep_time" ["timestamp_api_call"] _ _ Hd Hs) as H1.
  destruct (pandas_to_datetime t "dep_time") as [e|t1],
           (pandas_to_datetime (pandas_read_csv (pandas_to_csv t)) "dep_time") as [e'|u1];
    try contradiction; [now subst|].
  destruct H1 as [H1 Hn]. rewrite <- Hn in Hd.
  pose proof (to_datetime_step "timestamp_api_call" [] _ _ Hd H1) as H2.
  destruct (pandas_to_datetime t1 "timestamp_api_call") as [e|t2],
           (pandas_to_datetime u1 "timestamp_api_call") as [e'|u2];
    try contradiction; [now subst|].
  destruct H2 as [H2 _]. apply same_after_nil in H2. now subst.
Qed.

Lemma cache_round_trip_witness :
  safe_table (fetched_table "B") = true
  /\ read_back (fetched_table "B") = pandas_normalized (fetched_table "B").
Proof.
  assert (H : safe_table (fetched_table "B") = true) by (vm_compute; reflexivity).
  split; [exact H | exact (cache_round_trip _ H)].
Defined.

(** C9 as written fails on a text column whose cells all read as
    integers: the terminal ["2"] of every row is written as [2] and read
    back as the [int64] 2, so the dataset read from the cache differs from
    the one that was fetched. *)
Lemma cache_read_back_terminal_number :
  safe_table (fetched_table "2") = false /\
  exists fetched cached : table,
    pandas_normalized (fetched_table "2") = inr fetched /\
    read_back (fetched_table "2") = inr cached /\
    lookup "dep_terminal" fetched = Some (ObjectCol [Some "2"; Some "2"]) /\
    lookup "dep_terminal" cached = Some (IntCol [2; 2]) /\
    cached <> fetched.
Proof.
  split; [vm_compute; reflexivity|].
  eexists. eexists.
  split; [vm_compute; reflexivity|].
  split; [vm_compute; reflexivity|].
  split; [reflexivity|]. split; [reflexivity|].
  intros H. apply (f_equal (lookup "dep_terminal")) in H.
  vm_compute in H. discriminate H.
Qed.
